(** * Statute structuring engine: article segmenter, hierarchy join and
      paragraph decomposer of the [parsers] package.

    Python [str] values are sequences of Unicode code points; they are
    embedded as lists of code points, so that [len], slicing and the
    positions reported by [re] agree with the source. *)

From Stdlib Require Import String Ascii.
From stdpp Require Import base tactics option list numbers gmap sorting.

Set Default Proof Using "Type".
Local Open Scope nat_scope.

(** ** Code points and text *)

Abbreviation text := (list N).

Module Utf8.

Definition byte_of (a : ascii) : N := N_of_ascii a.

Fixpoint bytes (s : string) : list N :=
  match s with
  | EmptyString => []
  | String a s' => byte_of a :: bytes s'
  end.

Definition cont (b : N) : N := N.land b 63.

(** Decoder for the literals of this file (well-formed UTF-8). *)
Fixpoint decode (bs : list N) : text :=
  match bs with
  | [] => []
  | b0 :: r0 =>
      if (b0 <? 128)%N then b0 :: decode r0
      else match r0 with
           | [] => [b0]
           | b1 :: r1 =>
               if (b0 <? 224)%N
               then (N.land b0 31 * 64 + cont b1)%N :: decode r1
               else match r1 with
                    | [] => [b0]
                    | b2 :: r2 =>
                        if (b0 <? 240)%N
                        then (N.land b0 15 * 4096 + cont b1 * 64 + cont b2)%N
                               :: decode r2
                        else match r2 with
                             | [] => [b0]
                             | b3 :: r3 =>
                                 (N.land b0 7 * 262144 + cont b1 * 4096
                                  + cont b2 * 64 + cont b3)%N :: decode r3
                             end
                    end
           end
  end.

End Utf8.

(** [u "..."] is the Python string literal with the same characters. *)
Definition u (s : string) : text := Utf8.decode (Utf8.bytes s).

Definition NL : N := 10%N.

(** ** Character classes of the Unicode database used by [re] and [str] *)

Module Unicode.

Definition unicode_space : list (N * N) :=
  [(9, 13); (28, 32); (133, 133); (160, 160); (5760, 5760); (8192, 8202);
   (8232, 8233); (8239, 8239); (8287, 8287); (12288, 12288)]%N.
  
Definition unicode_decimal : list (N * N) :=
  [(48, 57); (1632, 1641); (1776, 1785); (1984, 1993); (2406, 2415); (2534, 2543);
   (2662, 2671); (2790, 2799); (2918, 2927); (3046, 3055); (3174, 3183); (3302, 3311);
   (3430, 3439); (3558, 3567); (3664, 3673); (3792, 3801); (3872, 3881); (4160, 4169);
   (4240, 4249); (6112, 6121); (6160, 6169); (6470, 6479); (6608, 6617); (6784, 6793);
   (6800, 6809); (6992, 7001); (7088, 7097); (7232, 7241); (7248, 7257); (42528, 42537);
   (43216, 43225); (43264, 43273); (43472, 43481); (43504, 43513); (43600, 43609); (44016, 44025);
   (65296, 65305); (66720, 66729); (68912, 68921); (69734, 69743); (69872, 69881); (69942, 69951);
   (70096, 70105); (70384, 70393); (70736, 70745); (70864, 70873); (71248, 71257); (71360, 71369);
   (71472, 71481); (71904, 71913); (72016, 72025); (72784, 72793); (73040, 73049); (73120, 73129);
   (92768, 92777); (92864, 92873); (93008, 93017); (120782, 120831); (123200, 123209); (123632, 123641);
   (125264, 125273); (130032, 130041)]%N.
  
Definition unicode_word : list (N * N) :=
  [(48, 57); (65, 90); (95, 95); (97, 122); (170, 170); (178, 179);
   (181, 181); (185, 186); (188, 190); (192, 214); (216, 246); (248, 705);
   (710, 721); (736, 740); (748, 748); (750, 750); (880, 884); (886, 887);
   (890, 893); (895, 895); (902, 902); (904, 906); (908, 908); (910, 929);
   (931, 1013); (1015, 1153); (1162, 1327); (1329, 1366); (1369, 1369); (1376, 1416);
   (1488, 1514); (1519, 1522); (1568, 1610); (1632, 1641); (1646, 1647); (1649, 1747);
   (1749, 1749); (1765, 1766); (1774, 1788); (1791, 1791); (1808, 1808); (1810, 1839);
   (1869, 1957); (1969, 1969); (1984, 2026); (2036, 2037); (2042, 2042); (2048, 2069);
   (2074, 2074); (2084, 2084); (2088, 2088); (2112, 2136); (2144, 2154); (2160, 2183);
   (2185, 2190); (2208, 2249); (2308, 2361); (2365, 2365); (2384, 2384); (2392, 2401);
   (2406, 2415); (2417, 2432); (2437, 2444); (2447, 2448); (2451, 2472); (2474, 2480);
   (2482, 2482); (2486, 2489); (2493, 2493); (2510, 2510); (2524, 2525); (2527, 2529);
   (2534, 2545); (2548, 2553); (2556, 2556); (2565, 2570); (2575, 2576); (2579, 2600);
   (2602, 2608); (2610, 2611); (2613, 2614); (2616, 2617); (2649, 2652); (2654, 2654);
   (2662, 2671); (2674, 2676); (2693, 2701); (2703, 2705); (2707, 2728); (2730, 2736);
   (2738, 2739); (2741, 2745); (2749, 2749); (2768, 2768); (2784, 2785); (2790, 2799);
   (2809, 2809); (2821, 2828); (2831, 2832); (2835, 2856); (2858, 2864); (2866, 2867);
   (2869, 2873); (2877, 2877); (2908, 2909); (2911, 2913); (2918, 2927); (2929, 2935);
   (2947, 2947); (2949, 2954); (2958, 2960); (2962, 2965); (2969, 2970); (2972, 2972);
   (2974, 2975); (2979, 2980); (2984, 2986); (2990, 3001); (3024, 3024); (3046, 3058);
   (3077, 3084); (3086, 3088); (3090, 3112); (3114, 3129); (3133, 3133); (3160, 3162);
   (3165, 3165); (3168, 3169); (3174, 3183); (3192, 3198); (3200, 3200); (3205, 3212);
   (3214, 3216); (3218, 3240); (3242, 3251); (3253, 3257); (3261, 3261); (3293, 3294);
   (3296, 3297); (3302, 3311); (3313, 3314); (3332, 3340); (3342, 3344); (3346, 3386);
   (3389, 3389); (3406, 3406); (3412, 3414); (3416, 3425); (3430, 3448); (3450, 3455);
   (3461, 3478); (3482, 3505); (3507, 3515); (3517, 3517); (3520, 3526); (3558, 3567);
   (3585, 3632); (3634, 3635); (3648, 3654); (3664, 3673); (3713, 3714); (3716, 3716);
   (3718, 3722); (3724, 3747); (3749, 3749); (3751, 3760); (3762, 3763); (3773, 3773);
   (3776, 3780); (3782, 3782); (3792, 3801); (3804, 3807); (3840, 3840); (3872, 3891);
   (3904, 3911); (3913, 3948); (3976, 3980); (4096, 4138); (4159, 4169); (4176, 4181);
   (4186, 4189); (4193, 4193); (4197, 4198); (4206, 4208); (4213, 4225); (4238, 4238);
   (4240, 4249); (4256, 4293); (4295, 4295); (4301, 4301); (4304, 4346); (4348, 4680);
   (4682, 4685); (4688, 4694); (4696, 4696); (4698, 4701); (4704, 4744); (4746, 4749);
   (4752, 4784); (4786, 4789); (4792, 4798); (4800, 4800); (4802, 4805); (4808, 4822);
   (4824, 4880); (4882, 4885); (4888, 4954); (4969, 4988); (4992, 5007); (5024, 5109);
   (5112, 5117); (5121, 5740); (5743, 5759); (5761, 5786); (5792, 5866); (5870, 5880);
   (5888, 5905); (5919, 5937); (5952, 5969); (5984, 5996); (5998, 6000); (6016, 6067);
   (6103, 6103); (6108, 6108); (6112, 6121); (6128, 6137); (6160, 6169); (6176, 6264);
   (6272, 6276); (6279, 6312); (6314, 6314); (6320, 6389); (6400, 6430); (6470, 6509);
   (6512, 6516); (6528, 6571); (6576, 6601); (6608, 6618); (6656, 6678); (6688, 6740);
   (6784, 6793); (6800, 6809); (6823, 6823); (6917, 6963); (6981, 6988); (6992, 7001);
   (7043, 7072); (7086, 7141); (7168, 7203); (7232, 7241); (7245, 7293); (7296, 7304);
   (7312, 7354); (7357, 7359); (7401, 7404); (7406, 7411); (7413, 7414); (7418, 7418);
   (7424, 7615); (7680, 7957); (7960, 7965); (7968, 8005); (8008, 8013); (8016, 8023);
   (8025, 8025); (8027, 8027); (8029, 8029); (8031, 8061); (8064, 8116); (8118, 8124);
   (8126, 8126); (8130, 8132); (8134, 8140); (8144, 8147); (8150, 8155); (8160, 8172);
   (8178, 8180); (8182, 8188); (8304, 8305); (8308, 8313); (8319, 8329); (8336, 8348);
   (8450, 8450); (8455, 8455); (8458, 8467); (8469, 8469); (8473, 8477); (8484, 8484);
   (8486, 8486); (8488, 8488); (8490, 8493); (8495, 8505); (8508, 8511); (8517, 8521);
   (8526, 8526); (8528, 8585); (9312, 9371); (9450, 9471); (10102, 10131); (11264, 11492);
   (11499, 11502); (11506, 11507); (11517, 11517); (11520, 11557); (11559, 11559); (11565, 11565);
   (11568, 11623); (11631, 11631); (11648, 11670); (11680, 11686); (11688, 11694); (11696, 11702);
   (11704, 11710); (11712, 11718); (11720, 11726); (11728, 11734); (11736, 11742); (11823, 11823);
   (12293, 12295); (12321, 12329); (12337, 12341); (12344, 12348); (12353, 12438); (12445, 12447);
   (12449, 12538); (12540, 12543); (12549, 12591); (12593, 12686); (12690, 12693); (12704, 12735);
   (12784, 12799); (12832, 12841); (12872, 12879); (12881, 12895); (12928, 12937); (12977, 12991);
   (13312, 19903); (19968, 42124); (42192, 42237); (42240, 42508); (42512, 42539); (42560, 42606);
   (42623, 42653); (42656, 42735); (42775, 42783); (42786, 42888); (42891, 42954); (42960, 42961);
   (42963, 42963); (42965, 42969); (42994, 43009); (43011, 43013); (43015, 43018); (43020, 43042);
   (43056, 43061); (43072, 43123); (43138, 43187); (43216, 43225); (43250, 43255); (43259, 43259);
   (43261, 43262); (43264, 43301); (43312, 43334); (43360, 43388); (43396, 43442); (43471, 43481);
   (43488, 43492); (43494, 43518); (43520, 43560); (43584, 43586); (43588, 43595); (43600, 43609);
   (43616, 43638); (43642, 43642); (43646, 43695); (43697, 43697); (43701, 43702); (43705, 43709);
   (43712, 43712); (43714, 43714); (43739, 43741); (43744, 43754); (43762, 43764); (43777, 43782);
   (43785, 43790); (43793, 43798); (43808, 43814); (43816, 43822); (43824, 43866); (43868, 43881);
   (43888, 44002); (44016, 44025); (44032, 55203); (55216, 55238); (55243, 55291); (63744, 64109);
   (64112, 64217); (64256, 64262); (64275, 64279); (64285, 64285); (64287, 64296); (64298, 64310);
   (64312, 64316); (64318, 64318); (64320, 64321); (64323, 64324); (64326, 64433); (64467, 64829);
   (64848, 64911); (64914, 64967); (65008, 65019); (65136, 65140); (65142, 65276); (65296, 65305);
   (65313, 65338); (65345, 65370); (65382, 65470); (65474, 65479); (65482, 65487); (65490, 65495);
   (65498, 65500); (65536, 65547); (65549, 65574); (65576, 65594); (65596, 65597); (65599, 65613);
   (65616, 65629); (65664, 65786); (65799, 65843); (65856, 65912); (65930, 65931); (66176, 66204);
   (66208, 66256); (66273, 66299); (66304, 66339); (66349, 66378); (66384, 66421); (66432, 66461);
   (66464, 66499); (66504, 66511); (66513, 66517); (66560, 66717); (66720, 66729); (66736, 66771);
   (66776, 66811); (66816, 66855); (66864, 66915); (66928, 66938); (66940, 66954); (66956, 66962);
   (66964, 66965); (66967, 66977); (66979, 66993); (66995, 67001); (67003, 67004); (67072, 67382);
   (67392, 67413); (67424, 67431); (67456, 67461); (67463, 67504); (67506, 67514); (67584, 67589);
   (67592, 67592); (67594, 67637); (67639, 67640); (67644, 67644); (67647, 67669); (67672, 67702);
   (67705, 67742); (67751, 67759); (67808, 67826); (67828, 67829); (67835, 67867); (67872, 67897);
   (67968, 68023); (68028, 68047); (68050, 68096); (68112, 68115); (68117, 68119); (68121, 68149);
   (68160, 68168); (68192, 68222); (68224, 68255); (68288, 68295); (68297, 68324); (68331, 68335);
   (68352, 68405); (68416, 68437); (68440, 68466); (68472, 68497); (68521, 68527); (68608, 68680);
   (68736, 68786); (68800, 68850); (68858, 68899); (68912, 68921); (69216, 69246); (69248, 69289);
   (69296, 69297); (69376, 69415); (69424, 69445); (69457, 69460); (69488, 69505); (69552, 69579);
   (69600, 69622); (69635, 69687); (69714, 69743); (69745, 69746); (69749, 69749); (69763, 69807);
   (69840, 69864); (69872, 69881); (69891, 69926); (69942, 69951); (69956, 69956); (69959, 69959);
   (69968, 70002); (70006, 70006); (70019, 70066); (70081, 70084); (70096, 70106); (70108, 70108);
   (70113, 70132); (70144, 70161); (70163, 70187); (70272, 70278); (70280, 70280); (70282, 70285);
   (70287, 70301); (70303, 70312); (70320, 70366); (70384, 70393); (70405, 70412); (70415, 70416);
   (70419, 70440); (70442, 70448); (70450, 70451); (70453, 70457); (70461, 70461); (70480, 70480);
   (70493, 70497); (70656, 70708); (70727, 70730); (70736, 70745); (70751, 70753); (70784, 70831);
   (70852, 70853); (70855, 70855); (70864, 70873); (71040, 71086); (71128, 71131); (71168, 71215);
   (71236, 71236); (71248, 71257); (71296, 71338); (71352, 71352); (71360, 71369); (71424, 71450);
   (71472, 71483); (71488, 71494); (71680, 71723); (71840, 71922); (71935, 71942); (71945, 71945);
   (71948, 71955); (71957, 71958); (71960, 71983); (71999, 71999); (72001, 72001); (72016, 72025);
   (72096, 72103); (72106, 72144); (72161, 72161); (72163, 72163); (72192, 72192); (72203, 72242);
   (72250, 72250); (72272, 72272); (72284, 72329); (72349, 72349); (72368, 72440); (72704, 72712);
   (72714, 72750); (72768, 72768); (72784, 72812); (72818, 72847); (72960, 72966); (72968, 72969);
   (72971, 73008); (73030, 73030); (73040, 73049); (73056, 73061); (73063, 73064); (73066, 73097);
   (73112, 73112); (73120, 73129); (73440, 73458); (73648, 73648); (73664, 73684); (73728, 74649);
   (74752, 74862); (74880, 75075); (77712, 77808); (77824, 78894); (82944, 83526); (92160, 92728);
   (92736, 92766); (92768, 92777); (92784, 92862); (92864, 92873); (92880, 92909); (92928, 92975);
   (92992, 92995); (93008, 93017); (93019, 93025); (93027, 93047); (93053, 93071); (93760, 93846);
   (93952, 94026); (94032, 94032); (94099, 94111); (94176, 94177); (94179, 94179); (94208, 100343);
   (100352, 101589); (101632, 101640); (110576, 110579); (110581, 110587); (110589, 110590); (110592, 110882);
   (110928, 110930); (110948, 110951); (110960, 111355); (113664, 113770); (113776, 113788); (113792, 113800);
   (113808, 113817); (119520, 119539); (119648, 119672); (119808, 119892); (119894, 119964); (119966, 119967);
   (119970, 119970); (119973, 119974); (119977, 119980); (119982, 119993); (119995, 119995); (119997, 120003);
   (120005, 120069); (120071, 120074); (120077, 120084); (120086, 120092); (120094, 120121); (120123, 120126);
   (120128, 120132); (120134, 120134); (120138, 120144); (120146, 120485); (120488, 120512); (120514, 120538);
   (120540, 120570); (120572, 120596); (120598, 120628); (120630, 120654); (120656, 120686); (120688, 120712);
   (120714, 120744); (120746, 120770); (120772, 120779); (120782, 120831); (122624, 122654); (123136, 123180);
   (123191, 123197); (123200, 123209); (123214, 123214); (123536, 123565); (123584, 123627); (123632, 123641);
   (124896, 124902); (124904, 124907); (124909, 124910); (124912, 124926); (124928, 125124); (125127, 125135);
   (125184, 125251); (125259, 125259); (125264, 125273); (126065, 126123); (126125, 126127); (126129, 126132);
   (126209, 126253); (126255, 126269); (126464, 126467); (126469, 126495); (126497, 126498); (126500, 126500);
   (126503, 126503); (126505, 126514); (126516, 126519); (126521, 126521); (126523, 126523); (126530, 126530);
   (126535, 126535); (126537, 126537); (126539, 126539); (126541, 126543); (126545, 126546); (126548, 126548);
   (126551, 126551); (126553, 126553); (126555, 126555); (126557, 126557); (126559, 126559); (126561, 126562);
   (126564, 126564); (126567, 126570); (126572, 126578); (126580, 126583); (126585, 126588); (126590, 126590);
   (126592, 126601); (126603, 126619); (126625, 126627); (126629, 126633); (126635, 126651); (127232, 127244);
   (130032, 130041); (131072, 173791); (173824, 177976); (177984, 178205); (178208, 183969); (183984, 191456);
   (194560, 195101); (196608, 201546)]%N.

Definition in_ranges (tbl : list (N * N)) (c : N) : bool :=
  existsb (λ r, (r.1 <=? c)%N && (c <=? r.2)%N) tbl.

(** [str.isspace], also the class [\s]. *)
Definition isspace (c : N) : bool := in_ranges unicode_space c.
(** The class [\d]. *)
Definition isdecimal (c : N) : bool := in_ranges unicode_decimal c.
(** The class [\w]: alphanumerics and the underscore. *)
Definition isword (c : N) : bool := in_ranges unicode_word c.

Definition is_ascii_upper (c : N) : bool := (65 <=? c)%N && (c <=? 90)%N.
Definition is_ascii_lower (c : N) : bool := (97 <=? c)%N && (c <=? 122)%N.

(** Case folding as [re.IGNORECASE] applies it to patterns written in
    Basic Latin: the 52 letters, and the four further code points
    U+0130, U+0131 (for i), U+017F (for s) and U+212A (for k). *)
Definition fold_case (c : N) : N :=
  if is_ascii_upper c then (c + 32)%N
  else if (c =? 304)%N || (c =? 305)%N then 105%N
  else if (c =? 383)%N then 115%N
  else if (c =? 8490)%N then 107%N
  else c.

Definition unfold_upper (c : N) : N :=
  if is_ascii_lower c then (c - 32)%N else c.

(** [str.lower] on the code points whose lower case contains a Basic
    Latin character: A–Z, U+0130 (to i followed by U+0307) and U+212A
    (to k).  Every other code point lowers to code points outside Basic
    Latin and is left as it is here: the source applies [lower] only
    before testing for Basic Latin substrings, which this leaves
    unchanged. *)
Definition lower_char (c : N) : list N :=
  if is_ascii_upper c then [(c + 32)%N]
  else if (c =? 304)%N then [105; 775]%N
  else if (c =? 8490)%N then [107%N]
  else [c].

End Unicode.

(** ** Operations of [str] *)

(** [s.strip()] *)
Fixpoint lstrip (s : text) : text :=
  match s with
  | c :: s' => if Unicode.isspace c then lstrip s' else s
  | [] => []
  end.
Definition rstrip (s : text) : text := reverse (lstrip (reverse s)).
Definition strip (s : text) : text := rstrip (lstrip s).

(** [s[a:b]] for indices [0 <= a], [0 <= b]; Python clamps both. *)
Definition slice (a b : nat) (s : text) : text := take (b - a) (drop a s).

(** [s.lower()], see [Unicode.lower_char]. *)
Definition lower (s : text) : text := flat_map Unicode.lower_char s.

Definition text_eqb (a b : text) : bool := bool_decide (a = b).

(** [s.startswith(p)] *)
Fixpoint startswith (p s : text) : bool :=
  match p, s with
  | [], _ => true
  | _ :: _, [] => false
  | x :: p', y :: s' => (x =? y)%N && startswith p' s'
  end.

(** [s.find(p)]: the lowest index at which [p] occurs in [s]. *)
Fixpoint find_from (p s : text) (i : nat) : option nat :=
  if startswith p s then Some i
  else match s with
       | [] => None
       | _ :: s' => find_from p s' (S i)
       end.
Definition find (p s : text) : Z :=
  match find_from p s 0 with Some i => Z.of_nat i | None => (-1)%Z end.

(** [p in s] *)
Definition contains (p s : text) : bool :=
  match find_from p s 0 with Some _ => true | None => false end.

(** [s.replace(a, b)] for a one-character [a]. *)
Definition replace_char (a : N) (b : text) (s : text) : text :=
  flat_map (λ c, if (c =? a)%N then b else [c]) s.

(** ** The fragment of [re] the parsers use

    The matcher is the backtracking matcher of [re]: alternatives are
    tried left to right, greedy repetitions take as much as they can and
    give back, lazy ones take as little as they can and extend.

    Where a comment quotes a pattern of the source it is laid out as
    under [re.VERBOSE]: blanks separate the tokens, and a blank of the
    pattern itself is written [[ ]]. *)

Module Re.

Inductive citem :=
| CChar (c : N)
| CRange (lo hi : N)
| CDigit
| CSpace
| CWord.

Inductive re :=
| Eps
| Lit (c : N)
| Any
| Cls (neg : bool) (items : list citem)
| Cat (r1 r2 : re)
| Alt (r1 r2 : re)
| Rep (greedy : bool) (lo : nat) (hi : option nat) (r : re)
| Grp (i : nat) (r : re)
| Bol
| Eol
| Eos
| Wordb
| Ahead (r : re)
| NotAhead (r : re).

Record flags :=
  { IGNORECASE : bool; MULTILINE : bool; DOTALL : bool }.

Definition no_flags : flags :=
  {| IGNORECASE := false; MULTILINE := false; DOTALL := false |}.
Definition flag_I : flags :=
  {| IGNORECASE := true; MULTILINE := false; DOTALL := false |}.
Definition flag_M : flags :=
  {| IGNORECASE := false; MULTILINE := true; DOTALL := false |}.
Definition flag_IM : flags :=
  {| IGNORECASE := true; MULTILINE := true; DOTALL := false |}.
Definition flag_MS : flags :=
  {| IGNORECASE := false; MULTILINE := true; DOTALL := true |}.

(** Group number to the span it last matched. *)
Abbreviation captures := (gmap nat (nat * nat)).

Record match_obj :=
  { m_start : nat; m_end : nat; m_caps : captures }.

Definition item_has (it : citem) (c : N) : bool :=
  match it with
  | CChar x => (x =? c)%N
  | CRange lo hi => (lo <=? c)%N && (c <=? hi)%N
  | CDigit => Unicode.isdecimal c
  | CSpace => Unicode.isspace c
  | CWord => Unicode.isword c
  end.

Definition items_have (its : list citem) (c : N) : bool :=
  existsb (λ it, item_has it c) its.

Definition lit_matches (fl : flags) (p c : N) : bool :=
  if IGNORECASE fl then (Unicode.fold_case p =? Unicode.fold_case c)%N
  else (p =? c)%N.

Definition cls_matches (fl : flags) (neg : bool) (its : list citem) (c : N)
  : bool :=
  let hit :=
    if IGNORECASE fl
    then items_have its c
         || items_have its (Unicode.fold_case c)
         || items_have its (Unicode.unfold_upper (Unicode.fold_case c))
    else items_have its c in
  xorb neg hit.

Definition any_matches (fl : flags) (c : N) : bool :=
  DOTALL fl || negb (c =? NL)%N.

Definition orelse {A} (x y : option A) : option A :=
  match x with Some _ => x | None => y end.

Section Matcher.
Variable fl : flags.
Variable s : text.

Definition word_at (i : nat) : bool :=
  match s !! i with Some c => Unicode.isword c | None => false end.

Definition at_bol (i : nat) : bool :=
  match i with
  | 0 => true
  | S j => MULTILINE fl && bool_decide (s !! j = Some NL)
  end.

Definition at_eos (i : nat) : bool := length s <=? i.

Definition at_eol (i : nat) : bool :=
  at_eos i
  || (bool_decide (s !! i = Some NL)
      && (MULTILINE fl || (length s =? S i))).

Definition at_wordb (i : nat) : bool :=
  let before := match i with 0 => false | S j => word_at j end in
  xorb before (word_at i).

Definition step (ok : N → bool) (i : nat) (caps : captures)
    (k : nat → captures → option (nat * captures))
  : option (nat * captures) :=
  match s !! i with
  | Some c => if ok c then k (S i) caps else None
  | None => None
  end.

Definition guard (b : bool) (i : nat) (caps : captures)
    (k : nat → captures → option (nat * captures))
  : option (nat * captures) :=
  if b then k i caps else None.

Abbreviation cont := (nat → captures → option (nat * captures)).

(** The repetition [body{lo,hi}] after [cnt] rounds.  A round past
    [lo] that consumes nothing ends the repetition. *)
Fixpoint rep_loop (body : nat → captures → cont → option (nat * captures))
    (greedy : bool) (lo : nat) (hi : option nat) (k : cont)
    (fuel cnt i : nat) (caps : captures) {struct fuel}
  : option (nat * captures) :=
  match fuel with
  | 0 => None
  | S fuel' =>
      let more :=
        if match hi with Some h => cnt <? h | None => true end
        then body i caps
               (λ j c,
                  if (j =? i) && (lo <=? cnt) then None
                  else rep_loop body greedy lo hi k fuel' (S cnt) j c)
        else None in
      let stop := if lo <=? cnt then k i caps else None in
      if greedy then orelse more stop else orelse stop more
  end.

(** [run r i caps k]: match [r] at position [i], then continue with
    [k]; on failure of [k] the next way of matching [r] is tried. *)
Fixpoint run (r : re) (i : nat) (caps : captures) (k : cont)
    {struct r} : option (nat * captures) :=
  match r with
  | Eps => k i caps
  | Lit p => step (lit_matches fl p) i caps k
  | Any => step (any_matches fl) i caps k
  | Cls neg its => step (cls_matches fl neg its) i caps k
  | Cat r1 r2 => run r1 i caps (λ j c, run r2 j c k)
  | Alt r1 r2 => orelse (run r1 i caps k) (run r2 i caps k)
  | Rep greedy lo hi r1 =>
      rep_loop (run r1) greedy lo hi k (S (lo + length s)) 0 i caps
  | Grp n r1 => run r1 i caps (λ j c, k j (<[n := (i, j)]> c))
  | Bol => guard (at_bol i) i caps k
  | Eol => guard (at_eol i) i caps k
  | Eos => guard (at_eos i) i caps k
  | Wordb => guard (at_wordb i) i caps k
  | Ahead r1 =>
      match run r1 i caps (λ j c, Some (j, c)) with
      | Some (_, c) => k i c
      | None => None
      end
  | NotAhead r1 =>
      match run r1 i caps (λ j c, Some (j, c)) with
      | Some _ => None
      | None => k i caps
      end
  end.

(** One attempt at position [i]; [must_advance] refuses the empty
    match directly after an empty match. *)
Definition match_at (r : re) (i : nat) (must_advance : bool)
  : option match_obj :=
  match run r i ∅
          (λ j c, if must_advance && (j =? i) then None else Some (j, c))
  with
  | Some (j, c) => Some {| m_start := i; m_end := j; m_caps := c |}
  | None => None
  end.

Fixpoint search_loop (r : re) (fuel i : nat) (must_advance : bool)
  : option match_obj :=
  match match_at r i must_advance with
  | Some m => Some m
  | None =>
      match fuel with
      | 0 => None
      | S fuel' => search_loop r fuel' (S i) false
      end
  end.

(** [pattern.search(s, i)] *)
Definition search_from (r : re) (i : nat) (must_advance : bool)
  : option match_obj :=
  search_loop r (length s - i) i must_advance.

Fixpoint finditer_loop (r : re) (fuel i : nat) (must_advance : bool)
  : list match_obj :=
  match fuel with
  | 0 => []
  | S fuel' =>
      if length s <? i then []
      else match search_from r i must_advance with
           | None => []
           | Some m =>
               m :: finditer_loop r fuel' (m_end m)
                      (m_end m =? m_start m)
           end
  end.

(** [list(pattern.finditer(s))] *)
Definition finditer (r : re) : list match_obj :=
  finditer_loop r (2 * length s + 2) 0 false.

(** [pattern.search(s)] and [pattern.match(s)] *)
Definition search (r : re) : option match_obj := search_from r 0 false.
Definition match_ (r : re) : option match_obj := match_at r 0 false.

(** [m.group(n)]; [None] when the group took no part in the match. *)
Definition group (m : match_obj) (n : nat) : option text :=
  match n with
  | 0 => Some (slice (m_start m) (m_end m) s)
  | _ => (λ '(a, b), slice a b s) <$> m_caps m !! n
  end.

(** Replacement templates: literal text and [\n] back-references. *)
Inductive titem := TText (t : text) | TGroup (n : nat).

Definition expand (tpl : list titem) (m : match_obj) : text :=
  flat_map (λ it, match it with
                  | TText t => t
                  | TGroup n => default [] (group m n)
                  end) tpl.

Fixpoint sub_loop (tpl : list titem) (ms : list match_obj) (i : nat)
  : text :=
  match ms with
  | [] => drop i s
  | m :: ms' =>
      slice i (m_start m) s ++ expand tpl m ++ sub_loop tpl ms' (m_end m)
  end.

(** [pattern.sub(tpl, s)] *)
Definition sub (r : re) (tpl : list titem) : text :=
  sub_loop tpl (finditer r) 0.

End Matcher.

(** Pattern syntax *)
Definition str (t : text) : re :=
  match t with
  | [] => Eps
  | c :: t' => foldl (λ r x, Cat r (Lit x)) (Lit c) t'
  end.
Definition cat (rs : list re) : re :=
  match rs with
  | [] => Eps
  | r :: rs' => foldl Cat r rs'
  end.
Definition alt (rs : list re) : re :=
  match rs with
  | [] => Eps
  | r :: rs' => foldl Alt r rs'
  end.
Definition star (r : re) : re := Rep true 0 None r.
Definition plus (r : re) : re := Rep true 1 None r.
Definition opt (r : re) : re := Rep true 0 (Some 1) r.
Definition lazy_star (r : re) : re := Rep false 0 None r.
Definition lazy_plus (r : re) : re := Rep false 1 None r.
Definition times (lo hi : nat) (r : re) : re := Rep true lo (Some hi) r.
Definition at_least (lo : nat) (r : re) : re := Rep true lo None r.
Definition ws : re := Cls false [CSpace].
Definition digit : re := Cls false [CDigit].
Definition not_nl : re := Cls true [CChar NL].
Definition chr (a : ascii) : N := N_of_ascii a.
Definition lit (a : ascii) : re := Lit (chr a).
Definition rng (a b : ascii) : citem := CRange (chr a) (chr b).
Definition one (a : ascii) : citem := CChar (chr a).
Definition word (w : string) : re := str (u w).
Definition letters : re := Cls false [rng "A" "Z"; rng "a" "z"].

Arguments chr a%_char.
Arguments lit a%_char.
Arguments rng (a b)%_char.
Arguments one a%_char.
Arguments word w%_string.

End Re.

Import Re.

(** ** Article units

    The segmenters return dicts with the keys ["id"] and ["text"], and,
    where the grammar provides them, ["title"] and ["deleted"]. *)

Record article :=
  { art_id : text;
    art_text : text;
    art_title : option text;
    art_deleted : bool }.

#[export] Instance article_eq_dec : EqDecision article.
Proof. solve_decision. Defined.

(** The id of the synthetic preamble unit and the texts of a deleted
    article. *)
Definition PREAMBLE_ID : text := u "전문".
Definition DELETED_SUFFIX : text := u " (삭제)".
Definition DELETED_TEXT : text := u "(삭제)".

Definition preamble_unit (t : text) : article :=
  {| art_id := PREAMBLE_ID; art_text := t;
     art_title := None; art_deleted := false |}.

(** Steps shared by the segmenters. *)

(** [start = match.start(); if text[start:start + 1] == "\n": start += 1] *)
Definition chunk_start (s : text) (m : match_obj) : nat :=
  if bool_decide (slice (m_start m) (m_start m + 1) s = [NL])
  then m_start m + 1 else m_start m.

(** [candidates[i + 1].start() if i + 1 < len(candidates) else len(text)] *)
Definition chunk_end (s : text) (rest : list match_obj) : nat :=
  match rest with
  | m' :: _ => m_start m'
  | [] => length s
  end.

Definition chunk_of (s : text) (m : match_obj) (rest : list match_obj) : text :=
  strip (slice (chunk_start s m) (chunk_end s rest) s).

(** [[{"id": "전문", "text": text.strip()}] if text.strip() else []] *)
Definition whole_as_preamble (s : text) : list article :=
  match strip s with
  | [] => []
  | t => [preamble_unit t]
  end.

(** The dict [seen] of the duplicate pass:
    [if aid not in seen or len(a["text"]) > len(seen[aid]["text"]):
         seen[aid] = a] *)
Definition seen_step (seen : gmap text article) (a : article)
  : gmap text article :=
  match seen !! art_id a with
  | None => <[art_id a := a]> seen
  | Some b =>
      if length (art_text b) <? length (art_text a)
      then <[art_id a := a]> seen
      else seen
  end.

Definition dedup (raw : list article) : gmap text article :=
  foldl seen_step ∅ raw.

(** [filtered]: [len(v["text"]) >= MIN_CONTENT_LEN or v.get("deleted")] *)
Definition keep_entry (min_len : nat) (v : article) : bool :=
  (min_len <=? length (art_text v)) || art_deleted v.

Definition length_filter (min_len : nat) (seen : gmap text article)
  : gmap text article :=
  filter (λ kv, keep_entry min_len kv.2 = true) seen.

(** [id_order]: the ids of [filtered] in order of first appearance. *)
Definition id_order_step (filtered : gmap text article)
    (order : list text) (a : article) : list text :=
  if bool_decide (is_Some (filtered !! art_id a))
     && negb (bool_decide (art_id a ∈ order))
  then order ++ [art_id a] else order.

Definition id_order (filtered : gmap text article) (raw : list article)
  : list text :=
  foldl (id_order_step filtered) [] raw.

(** The closing loop: a deleted entry gets the suffixed id and the
    sentinel text. *)
Definition emit_entry (entry : article) : article :=
  if art_deleted entry
  then {| art_id := art_id entry ++ DELETED_SUFFIX;
          art_text := DELETED_TEXT;
          art_title := art_title entry;
          art_deleted := true |}
  else entry.

Definition emit (filtered : gmap text article) (order : list text)
  : list article :=
  omap (λ aid, emit_entry <$> filtered !! aid) order.

(** ** [parsers/epc.py] *)

Module Epc.

Definition EPC_NAME : text := u "European Patent Convention".

(** [_clean_epc_annotations]: the substitutions, in order, each with
    its flags and its replacement. *)

(** [\n \d{1,3} \n European[ ]Patent[ ]Convention [^\n]*] *)
Definition header_before : re :=
  cat [Lit NL; times 1 3 digit; Lit NL; str EPC_NAME; star not_nl].

(** [\n European[ ]Patent[ ]Convention [^\n]* \n \d{1,3} (?= \n | $ )] *)
Definition header_after : re :=
  cat [Lit NL; str EPC_NAME; star not_nl; Lit NL; times 1 3 digit;
       Ahead (Alt (Lit NL) Eol)].

Definition margin_chars : list citem :=
  [CDigit; one ","; CSpace; one "-"; rng "a" "z"; rng "A" "Z"].

(** With [re.MULTILINE]:
    [^ ( (?: Article | Rule ) \s+ \d+ [A-Za-z]* ) \s+ (?: Art\. | R\. ) \s*
     [\d,\s\-a-zA-Z]+ $] *)
Definition heading_margin : re :=
  cat [Bol;
       Grp 1 (cat [Alt (word "Article") (word "Rule"); plus ws; plus digit;
                   star letters]);
       plus ws; Alt (word "Art.") (word "R."); star ws;
       plus (Cls false margin_chars); Eol].

(** [(?m) ^ (?: Art\. | R\. ) \s* [\d,\s\-a-zA-Z]{1,30} $] *)
Definition margin_line : re :=
  cat [Bol; Alt (word "Art.") (word "R."); star ws;
       times 1 30 (Cls false margin_chars); Eol].

(** [(?m) ^ (?! Article | Rule | Section | The[ ] | A[ ] | An[ ] | In[ ]
     | No[ ] | Any[ ] ) [\d] [,\s\d\-a-zA-Z]{0,19} $
     (?= \n (?: \( | [A-Z] [a-z] ) )] *)
Definition margin_continuation : re :=
  cat [Bol;
       NotAhead (alt [word "Article"; word "Rule"; word "Section";
                      word "The "; word "A "; word "An "; word "In ";
                      word "No "; word "Any "]);
       Cls false [CDigit];
       times 0 19 (Cls false [one ","; CSpace; CDigit; one "-";
                              rng "a" "z"; rng "A" "Z"]);
       Eol;
       Ahead (Cat (Lit NL)
                (Alt (lit "(")
                   (Cat (Cls false [rng "A" "Z"]) (Cls false [rng "a" "z"]))))].

Definition title_chars : re :=
  Cls false [rng "a" "z"; rng "A" "Z"; one " "].
Definition sp : re := Cls false [one " "].

(** [(?m) ^ ( [A-Z] [a-zA-Z ]+? ) [ ]+ R\. [ ]* [\d, \-a-zA-Z]+ [, ]* $] *)
Definition title_rule_margin : re :=
  cat [Bol;
       Grp 1 (Cat (Cls false [rng "A" "Z"]) (lazy_plus title_chars));
       plus sp; word "R."; star sp;
       plus (Cls false [CDigit; one ","; one " "; one "-";
                        rng "a" "z"; rng "A" "Z"]);
       star (Cls false [one ","; one " "]); Eol].

(** [(?m) ^ ( [A-Z] [a-zA-Z ]+? ) [ ]+ ( \d+ [a-z] ) $] *)
Definition title_number_margin : re :=
  cat [Bol;
       Grp 1 (Cat (Cls false [rng "A" "Z"]) (lazy_plus title_chars));
       plus sp;
       Grp 2 (Cat (plus digit) (Cls false [rng "a" "z"]));
       Eol].

Definition ref_number : re :=
  Cat (plus digit) (opt (Cls false [rng "a" "z"])).

(** [(?m) ( (?: for | of | under | to ) :? [ ]* )
     ( \d+ [a-z]? (?: , [ ]* \d+ [a-z]? )* ) [ ]* $] *)
Definition trailing_refs : re :=
  cat [Grp 1 (cat [alt [word "for"; word "of"; word "under"; word "to"];
                   opt (lit ":"); star sp]);
       Grp 2 (Cat ref_number
                (star (cat [lit ","; star sp; ref_number])));
       star sp; Eol].

(** [(?m) ^ See[ ]opinions? (?: /decisions? )? [ ]of [^\n]* $] *)
Definition see_opinion : re :=
  cat [Bol; word "See opinion"; opt (lit "s");
       opt (Cat (word "/decision") (opt (lit "s")));
       word " of"; star not_nl; Eol].

(** [(?m) ^ (?: (?: Title[ ] )? [Aa]mended | [Ii]nserted | [Dd]eleted
     | See[ ]decision | See[ ]decisions ) [ ] (?: by[ ] | of[ ] ) [^\n]* $] *)
Definition amendment_line : re :=
  cat [Bol;
       alt [cat [opt (word "Title "); Cls false [one "A"; one "a"];
                 word "mended"];
            Cat (Cls false [one "I"; one "i"]) (word "nserted");
            Cat (Cls false [one "D"; one "d"]) (word "eleted");
            word "See decision"; word "See decisions"];
       lit " "; Alt (word "by ") (word "of "); star not_nl; Eol].

(** [\n{3,}] *)
Definition blank_lines : re := at_least 3 (Lit NL).

Definition G1 : list titem := [TGroup 1].

Definition _clean_epc_annotations (text0 : text) : text :=
  let t := sub no_flags text0 header_before [] in
  let t := sub no_flags t header_after [] in
  let t := sub flag_M t heading_margin G1 in
  let t := sub flag_M t margin_line [] in
  let t := sub flag_M t margin_continuation [] in
  let t := sub flag_M t title_rule_margin G1 in
  let t := sub flag_M t title_number_margin G1 in
  let t := sub flag_M t trailing_refs G1 in
  let t := sub flag_M t see_opinion [] in
  let t := sub flag_M t amendment_line [] in
  sub no_flags t blank_lines [TText [NL; NL]].

(** The article boundary, with [re.IGNORECASE]:
    [(?: ^ | \n ) ( (?: Article | Section | Rule | Regulation ) \s+ \d+
     [A-Za-z]* ) \b] *)
Definition article_pattern : re :=
  cat [Alt Bol (Lit NL);
       Grp 1 (cat [alt [word "Article"; word "Section"; word "Rule";
                        word "Regulation"];
                   plus ws; plus digit; star letters]);
       Wordb].

(** [\d+] *)
Definition digits : re := plus digit.

(** [len(num_match.group())], and 0 when there is no [num_match]. *)
Definition numeral_length (article_id : text) : nat :=
  match search no_flags article_id digits with
  | Some m => length (default [] (group article_id m 0))
  | None => 0
  end.

(** [num_match and len(num_match.group()) > 4] *)
Definition long_numeral (article_id : text) : bool :=
  4 <? numeral_length article_id.

Definition MIN_CONTENT_LEN : nat := 80.

(** First pass: one raw article per line-anchored match. *)
Fixpoint raw_articles (s : text) (cands : list match_obj) : list article :=
  match cands with
  | [] => []
  | m :: rest =>
      let chunk := chunk_of s m rest in
      match chunk with
      | [] => raw_articles s rest
      | _ =>
          let article_id := strip (default [] (group s m 1)) in
          if long_numeral article_id then raw_articles s rest
          else {| art_id := article_id; art_text := chunk;
                  art_title := None; art_deleted := false |}
                 :: raw_articles s rest
      end
  end.

Definition roman : re := Cls false [one "I"; one "V"; one "X"].
Definition roman_or_digit : re :=
  Cls false [one "I"; one "V"; one "X"; rng "0" "9"].

(** Second pass: the six [hierarchy_patterns], in order. *)
Definition hierarchy_patterns : list (flags * re) :=
  [ (flag_IM, cat [Bol; Alt (word "PART") (word "Part"); plus ws;
                   plus roman; star not_nl; opt (Lit NL)]);
    (flag_IM, cat [Bol; Alt (word "CHAPTER") (word "Chapter"); plus ws;
                   plus roman_or_digit; star not_nl; opt (Lit NL)]);
    (flag_IM, cat [Bol; Alt (word "SECTION") (word "Section"); plus ws;
                   plus roman; star not_nl; opt (Lit NL)]);
    (flag_I, cat [Lit NL; Alt (word "PART") (word "Part"); plus ws;
                  plus roman; star not_nl]);
    (flag_I, cat [Lit NL; Alt (word "CHAPTER") (word "Chapter"); plus ws;
                  plus roman_or_digit; star not_nl]);
    (flag_I, cat [Lit NL; Alt (word "SECTION") (word "Section"); plus ws;
                  plus roman; star not_nl]) ].

Definition strip_hierarchy (a : article) : article :=
  let cleaned :=
    foldl (λ t p, sub p.1 t p.2 []) (art_text a) hierarchy_patterns in
  {| art_id := art_id a; art_text := strip cleaned;
     art_title := art_title a; art_deleted := art_deleted a |}.

(** Third pass, with [re.IGNORECASE]: [\(deleted\) | \(repealed\)] *)
Definition deleted_pattern : re :=
  Alt (word "(deleted)") (word "(repealed)").

Definition mark_deleted (a : article) : article :=
  match search flag_I (art_text a) deleted_pattern with
  | Some _ => {| art_id := art_id a; art_text := art_text a;
                 art_title := art_title a; art_deleted := true |}
  | None => a
  end.

(** The raw articles as the duplicate pass sees them. *)
Definition prepared (s : text) (cands : list match_obj) : list article :=
  mark_deleted <$> (strip_hierarchy <$> raw_articles s cands).

(** [text[:first_start].strip()] *)
Definition preamble_text (s : text) (first : match_obj) : text :=
  strip (take (chunk_start s first) s).

Definition cleaned (text0 : text) : text :=
  if contains EPC_NAME text0 then _clean_epc_annotations text0 else text0.

Definition candidates (s : text) : list match_obj :=
  finditer flag_I s article_pattern.

(** The body of [_split_english] from the point where [text] holds the
    cleaned text. *)
Definition split_cleaned (s : text) : list article :=
  match candidates s with
  | [] => whole_as_preamble s
  | (first :: _) as cands =>
      let raw := prepared s cands in
      let filtered := length_filter MIN_CONTENT_LEN (dedup raw) in
      let order := id_order filtered raw in
      match preamble_text s first with
      | [] => []
      | p => [preamble_unit p]
      end ++ emit filtered order
  end.

Definition _split_english (text0 : text) : list article :=
  split_cleaned (cleaned text0).

End Epc.

(** ** Paragraph units

    The decomposers return dicts with the keys ["paragraph"], ["item"],
    ["subitem"], ["subsubitem"] and ["text"]. *)

Record paragraph_unit :=
  { paragraph : text;
    item : text;
    subitem : text;
    subsubitem : text;
    unit_text : text }.

#[export] Instance paragraph_unit_eq_dec : EqDecision paragraph_unit.
Proof. solve_decision. Defined.

(** The loop the decomposers share: the body of a marker runs from the
    end of its match to the start of the next marker (or to the end of
    the text), stripped. *)
Fixpoint bodies (s : text) (ms : list match_obj) : list (match_obj * text) :=
  match ms with
  | [] => []
  | m :: rest =>
      (m, strip (slice (m_end m) (chunk_end s rest) s)) :: bodies s rest
  end.

(** [text[:ms[0].start()].strip()], emitted when it is not empty. *)
Definition lead_text (s : text) (first : match_obj) : text :=
  strip (take (m_start first) s).

Definition group1 (s : text) (m : match_obj) : text :=
  default [] (group s m 1).

(** [(?: ^ | \n ) \s* \( ( label ) \) \s+], the shape of the bracketed
    markers. *)
Definition bracketed (label : re) : re :=
  cat [Alt Bol (Lit NL); star ws; lit "("; Grp 1 label; lit ")"; plus ws].

Definition roman_lower : re :=
  plus (Cls false [one "i"; one "v"; one "x"; one "l"; one "c"; one "d";
                   one "m"]).

(** [[a-hj-uw-z]] *)
Definition letter_not_roman : re :=
  Cls false [rng "a" "h"; rng "j" "u"; rng "w" "z"].

Module EpcParagraphs.

(** [(?: ^ | \n ) \s* \( ( \d+ ) \) \s+] *)
Definition para_pattern : re := bracketed (plus digit).
(** [(?: ^ | \n ) \s* \( ( [a-hj-uw-z] ) \) \s+] *)
Definition item_pattern : re := bracketed letter_not_roman.
(** [(?: ^ | \n ) \s* \( ( [ivxlcdm]+ ) \) \s+] *)
Definition subitem_pattern : re := bracketed roman_lower.

(** [\b means \b] *)
Definition means_pattern : re := cat [Wordb; word "means"; Wordb].

Definition means_count (para_text : text) : nat :=
  length (finditer no_flags para_text means_pattern).

Definition _is_definition_paragraph (para_text : text) : bool :=
  (3 <=? means_count para_text)
  || contains (u "unless the context otherwise requires") (lower para_text).

Definition subitem_rows (para_num item_letter item_text : text)
  : list paragraph_unit :=
  match finditer no_flags item_text subitem_pattern with
  | [] =>
      [{| paragraph := para_num; item := item_letter; subitem := [];
          subsubitem := []; unit_text := item_text |}]
  | subitems =>
      (λ mt, {| paragraph := para_num; item := item_letter;
                subitem := group1 item_text mt.1; subsubitem := [];
                unit_text := mt.2 |})
        <$> bodies item_text subitems
  end.

Definition item_rows (para_num para_text : text) : list paragraph_unit :=
  match finditer no_flags para_text item_pattern with
  | [] =>
      [{| paragraph := para_num; item := []; subitem := [];
          subsubitem := []; unit_text := para_text |}]
  | (first :: _) as items =>
      match lead_text para_text first with
      | [] => []
      | lead => [{| paragraph := para_num; item := []; subitem := [];
                    subsubitem := []; unit_text := lead |}]
      end
      ++ flat_map (λ mt, subitem_rows para_num (group1 para_text mt.1) mt.2)
           (bodies para_text items)
  end.

Definition paragraph_rows (para_num para_text : text)
  : list paragraph_unit :=
  if _is_definition_paragraph para_text
  then [{| paragraph := para_num; item := []; subitem := [];
           subsubitem := []; unit_text := para_text |}]
  else item_rows para_num para_text.

(** The paragraph spans of a body: number and stripped text. *)
Definition paragraph_spans (s : text) : list (text * text) :=
  (λ mt, (group1 s mt.1, mt.2))
    <$> bodies s (finditer no_flags s para_pattern).

Definition _parse_paragraphs_english (s : text) : list paragraph_unit :=
  flat_map (λ sp, paragraph_rows sp.1 sp.2) (paragraph_spans s).

End EpcParagraphs.

(** ** [parsers/korea.py] *)

Module Korea.

(** [제 \s* \d+ \s* 조 (?: 의 \s* \d+ )?] *)
Definition article_number : re :=
  cat [word "제"; star ws; plus digit; star ws; word "조";
       opt (cat [word "의"; star ws; plus digit])].

(** [(?: ^ | \n ) ( 제 \s* \d+ \s* 조 (?: 의 \s* \d+ )? ) (?: \s* \( | 삭제 )] *)
Definition article_pattern : re :=
  cat [Alt Bol (Lit NL); Grp 1 article_number;
       Alt (Cat (star ws) (lit "(")) (word "삭제")].

(** [제 \s* \d+ \s* 조 (?: 의 \s* \d+ )? \s* 삭제], tried with [re.match]. *)
Definition deleted_pattern : re :=
  cat [article_number; star ws; word "삭제"].

Definition candidates (s : text) : list match_obj :=
  finditer no_flags s article_pattern.

Fixpoint articles_loop (s : text) (ms : list match_obj) : list article :=
  match ms with
  | [] => []
  | m :: rest =>
      let chunk := chunk_of s m rest in
      match chunk with
      | [] => articles_loop s rest
      | _ =>
          let article_id := strip (group1 s m) in
          match match_ no_flags chunk deleted_pattern with
          | Some _ =>
              {| art_id := article_id ++ DELETED_SUFFIX;
                 art_text := DELETED_TEXT;
                 art_title := None; art_deleted := false |}
          | None =>
              {| art_id := article_id; art_text := chunk;
                 art_title := None; art_deleted := false |}
          end :: articles_loop s rest
      end
  end.

Definition preamble_text (s : text) (first : match_obj) : text :=
  strip (take (chunk_start s first) s).

Definition _split_korean (s : text) : list article :=
  match candidates s with
  | [] => whole_as_preamble s
  | (first :: _) as ms =>
      match preamble_text s first with
      | [] => []
      | p => [preamble_unit p]
      end ++ articles_loop s ms
  end.

(** *** [_parse_paragraphs_korean] *)

(** The twenty circled numbers, U+2460 to U+2473. *)
Definition CIRCLED_ONE : N := 9312%N.
Definition para_pattern : re :=
  Cls false [CRange CIRCLED_ONE 9331%N].

(** [str(n)] *)
Definition str_of_N (n : N) : text := u (pretty.pretty n).

(** [str(ord(m.group()) - ord('①') + 1)] *)
Definition para_num_of (s : text) (m : match_obj) : text :=
  match s !! m_start m with
  | Some c => str_of_N (c - CIRCLED_ONE + 1)
  | None => []
  end.

(** [(?: ^ | \n ) \s* (?: 제 \s* )? ( \d{1,3} ) (?: \. \s+ | 호 \s* )] *)
Definition item_pattern : re :=
  cat [Alt Bol (Lit NL); star ws; opt (Cat (word "제") (star ws));
       Grp 1 (times 1 3 digit);
       Alt (Cat (lit ".") (plus ws)) (Cat (word "호") (star ws))].

(** [^ \s* (?: 부터 | 까지 | 에 | 의 | 를 | 을 | 와 | 과 | 로 | 으로 | 이
     | 가 | 는 | 만 | 도 )], tried with [re.match]. *)
Definition particle_pattern : re :=
  cat [Bol; star ws;
       alt [word "부터"; word "까지"; word "에"; word "의"; word "를";
            word "을"; word "와"; word "과"; word "로"; word "으로";
            word "이"; word "가"; word "는"; word "만"; word "도"]].

(** [(?: ^ | \n ) \s* ( [가-힣] ) (?: \. \s+ | 목 \s* )] *)
Definition hangul : re := Cls false [CRange 44032%N 55203%N].
Definition subitem_pattern : re :=
  cat [Alt Bol (Lit NL); star ws; Grp 1 hangul;
       Alt (Cat (lit ".") (plus ws)) (Cat (word "목") (star ws))].

(** [(?: ^ | \n ) \s* (?: ( \d{1,2} ) | ( [가-힣] ) ) \) \s+] *)
Definition subsubitem_pattern : re :=
  cat [Alt Bol (Lit NL); star ws;
       Alt (Grp 1 (times 1 2 digit)) (Grp 2 hangul);
       lit ")"; plus ws].

(** The filter on the raw item matches: a match followed by a particle
    is a reference, and so is one inside an open bracket. *)
Definition is_item (para_text : text) (m : match_obj) : bool :=
  let suffix :=
    slice (m_end m) (Nat.min (m_end m + 10) (length para_text)) para_text in
  match match_ no_flags suffix particle_pattern with
  | Some _ => false
  | None =>
      let prefix := slice (m_start m - 20) (m_start m) para_text in
      negb ((contains (u "(") prefix || contains (u "(") prefix)
            && (negb (contains (u ")") prefix)
                && negb (contains (u ")") prefix)))
  end.

(** [m.group(1) or m.group(2)] *)
Definition group_1_or_2 (s : text) (m : match_obj) : text :=
  match group s m 1 with
  | Some (_ :: _ as g) => g
  | _ => default [] (group s m 2)
  end.

Definition subsubitem_rows (para_num item_num subitem_char subitem_text : text)
  : list paragraph_unit :=
  match finditer no_flags subitem_text subsubitem_pattern with
  | [] =>
      [{| paragraph := para_num; item := item_num;
          subitem := subitem_char; subsubitem := [];
          unit_text := subitem_text |}]
  | subsubitems =>
      (λ mt, {| paragraph := para_num; item := item_num;
                subitem := subitem_char;
                subsubitem := group_1_or_2 subitem_text mt.1;
                unit_text := mt.2 |})
        <$> bodies subitem_text subsubitems
  end.

Definition subitem_rows (para_num item_num item_text : text)
  : list paragraph_unit :=
  match finditer no_flags item_text subitem_pattern with
  | [] =>
      [{| paragraph := para_num; item := item_num; subitem := [];
          subsubitem := []; unit_text := item_text |}]
  | subitems =>
      flat_map (λ mt, subsubitem_rows para_num item_num
                        (group1 item_text mt.1) mt.2)
        (bodies item_text subitems)
  end.

Definition item_rows (para_num para_text : text) : list paragraph_unit :=
  match filter (λ m, is_item para_text m = true)
          (finditer no_flags para_text item_pattern) with
  | [] =>
      [{| paragraph := para_num; item := []; subitem := [];
          subsubitem := []; unit_text := para_text |}]
  | items =>
      flat_map (λ mt, subitem_rows para_num (group1 para_text mt.1) mt.2)
        (bodies para_text items)
  end.

(** [paragraphs_to_process]: number and text of each paragraph. *)
Definition paragraphs_to_process (s : text) : list (text * text) :=
  match finditer no_flags s para_pattern with
  | [] => [([], s)]
  | paragraphs => (λ mt, (para_num_of s mt.1, mt.2)) <$> bodies s paragraphs
  end.

Definition _parse_paragraphs_korean (s : text) : list paragraph_unit :=
  flat_map (λ p, item_rows p.1 p.2) (paragraphs_to_process s).

End Korea.

(** ** [parsers/usa.py] *)

Module Usa.

Definition SECTION_SIGN : N := 167%N.

Definition dot : re := Any.

(** [_clean_us_westlaw_metadata]: every pattern but the last carries
    [(?m)]; the first also [re.DOTALL]. *)

(** [^ CREDIT\(S\) .*? (?= ^ § \s* \d+ | \Z )] *)
Definition credits : re :=
  cat [Bol; word "CREDIT(S)"; lazy_star dot;
       Ahead (Alt (cat [Bol; Lit SECTION_SIGN; star ws; plus digit]) Eos)].

(** [^ Notes[ ]of[ ]Decisions \s* \( \d+ \) \s* $] *)
Definition notes_of_decisions : re :=
  cat [Bol; word "Notes of Decisions"; star ws; lit "("; plus digit;
       lit ")"; star ws; Eol].

(** [^ End[ ]of[ ]Document \s* $] *)
Definition end_of_document : re :=
  cat [Bol; word "End of Document"; star ws; Eol].

(** [^ © \s* 20 \d{2} \s+ Thomson[ ]Reuters .* $] *)
Definition copyright : re :=
  cat [Bol; Lit 169%N; star ws; word "20"; times 2 2 digit; plus ws;
       word "Thomson Reuters"; star dot; Eol].

(** [^ Currentness \s* $] *)
Definition currentness : re := cat [Bol; word "Currentness"; star ws; Eol].

(** [^ Effective: .* $] *)
Definition effective : re := cat [Bol; word "Effective:"; star dot; Eol].

(** [^ KeyCite \s .* $] *)
Definition keycite : re := cat [Bol; word "KeyCite"; ws; star dot; Eol].

(** [^ \d+ \s+ U \.? S \.? C \.? A \.? \s+ § \s* \d+ .* $] *)
Definition usca_dotted : re :=
  cat [Bol; plus digit; plus ws;
       lit "U"; opt (lit "."); lit "S"; opt (lit ".");
       lit "C"; opt (lit "."); lit "A"; opt (lit ".");
       plus ws; Lit SECTION_SIGN; star ws; plus digit; star dot; Eol].

(** [^ \d+ \s+ USCA \s+ § \s* \d+ .* $] *)
Definition usca : re :=
  cat [Bol; plus digit; plus ws; word "USCA"; plus ws; Lit SECTION_SIGN;
       star ws; plus digit; star dot; Eol].

(** [^ Current[ ]through[ ]P\.L\. .* $] *)
Definition current_through : re :=
  cat [Bol; word "Current through P.L."; star dot; Eol].

(** [^ Refs[ ]&[ ]Annos \s* $] *)
Definition refs_annos : re := cat [Bol; word "Refs & Annos"; star ws; Eol].

(** [^ Disposition[ ]Table \s* $] *)
Definition disposition : re :=
  cat [Bol; word "Disposition Table"; star ws; Eol].

Definition _clean_us_westlaw_metadata (text0 : text) : text :=
  let t := sub flag_MS text0 credits [] in
  let t := sub flag_M t notes_of_decisions [] in
  let t := sub flag_M t end_of_document [] in
  let t := sub flag_M t copyright [] in
  let t := sub flag_M t currentness [] in
  let t := sub flag_M t effective [] in
  let t := sub flag_M t keycite [] in
  let t := sub flag_M t usca_dotted [] in
  let t := sub flag_M t usca [] in
  let t := sub flag_M t current_through [] in
  let t := sub flag_M t refs_annos [] in
  let t := sub flag_M t disposition [] in
  sub no_flags t Epc.blank_lines [TText [NL; NL]].

Definition letter : re := Cls false [rng "a" "z"; rng "A" "Z"].

(** [(?: ^ | \n ) ( § \s* \d+ [a-zA-Z]? (?: - \d+ [a-zA-Z]? )? ) \. \s+
     ( [^\n]+ )] *)
Definition article_pattern : re :=
  cat [Alt Bol (Lit NL);
       Grp 1 (cat [Lit SECTION_SIGN; star ws; plus digit; opt letter;
                   opt (cat [lit "-"; plus digit; opt letter])]);
       lit "."; plus ws; Grp 2 (plus not_nl)].

(** [\s+ \[ .* $] *)
Definition bracket_tail : re := cat [plus ws; lit "["; star dot; Eol].

Definition MIN_CONTENT_LEN : nat := 60.

Fixpoint raw_articles (s : text) (cands : list match_obj) : list article :=
  match cands with
  | [] => []
  | m :: rest =>
      let chunk := chunk_of s m rest in
      match chunk with
      | [] => raw_articles s rest
      | _ =>
          let raw_id := strip (group1 s m) in
          let article_num := strip (replace_char SECTION_SIGN [] raw_id) in
          let title := strip (default [] (group s m 2)) in
          let title := strip (sub no_flags title bracket_tail []) in
          {| art_id := article_num; art_text := chunk;
             art_title := Some title; art_deleted := false |}
            :: raw_articles s rest
      end
  end.

(** ["(repealed)" in lower_text or
    "repealed" in a.get("title", "").lower()] *)
Definition mark_deleted (a : article) : article :=
  if contains (u "(repealed)") (lower (art_text a))
     || contains (u "repealed") (lower (default [] (art_title a)))
  then {| art_id := art_id a; art_text := art_text a;
          art_title := art_title a; art_deleted := true |}
  else a.

Definition prepared (s : text) (cands : list match_obj) : list article :=
  mark_deleted <$> raw_articles s cands.

Definition candidates (s : text) : list match_obj :=
  finditer no_flags s article_pattern.

(** [preamble and len(preamble) > 50] *)
Definition preamble_part (s : text) (first : match_obj) : list article :=
  let preamble := strip (take (chunk_start s first) s) in
  if 50 <? length preamble then [preamble_unit preamble] else [].

(** The body of [_split_us_english] after the metadata is removed. *)
Definition split_cleaned (s : text) : list article :=
  match candidates s with
  | [] => whole_as_preamble s
  | (first :: _) as cands =>
      let raw := prepared s cands in
      let filtered := length_filter MIN_CONTENT_LEN (dedup raw) in
      let order := id_order filtered raw in
      preamble_part s first ++ emit filtered order
  end.

Definition _split_us_english (text0 : text) : list article :=
  split_cleaned (_clean_us_westlaw_metadata text0).

(** *** [_parse_paragraphs_us]: (a), (1), (A), (i) *)

Definition para_pattern : re := bracketed letter_not_roman.
Definition item_pattern : re := bracketed (plus digit).
Definition subitem_pattern : re := bracketed (Cls false [rng "A" "Z"]).
Definition subsubitem_pattern : re := bracketed roman_lower.

Definition subsubitem_rows
    (para_letter item_num subitem_letter subitem_text : text)
  : list paragraph_unit :=
  match finditer no_flags subitem_text subsubitem_pattern with
  | [] =>
      [{| paragraph := para_letter; item := item_num;
          subitem := subitem_letter; subsubitem := [];
          unit_text := subitem_text |}]
  | subsubitems =>
      (λ mt, {| paragraph := para_letter; item := item_num;
                subitem := subitem_letter;
                subsubitem := group1 subitem_text mt.1;
                unit_text := mt.2 |})
        <$> bodies subitem_text subsubitems
  end.

Definition subitem_rows (para_letter item_num item_text : text)
  : list paragraph_unit :=
  match finditer no_flags item_text subitem_pattern with
  | [] =>
      [{| paragraph := para_letter; item := item_num; subitem := [];
          subsubitem := []; unit_text := item_text |}]
  | subitems =>
      flat_map (λ mt, subsubitem_rows para_letter item_num
                        (group1 item_text mt.1) mt.2)
        (bodies item_text subitems)
  end.

Definition lead_row (para_letter lead : text) : list paragraph_unit :=
  match lead with
  | [] => []
  | _ => [{| paragraph := para_letter; item := []; subitem := [];
             subsubitem := []; unit_text := lead |}]
  end.

Definition item_rows (para_letter para_text : text) : list paragraph_unit :=
  match finditer no_flags para_text item_pattern with
  | [] =>
      [{| paragraph := para_letter; item := []; subitem := [];
          subsubitem := []; unit_text := para_text |}]
  | (first :: _) as items =>
      lead_row para_letter (lead_text para_text first)
      ++ flat_map (λ mt, subitem_rows para_letter
                           (group1 para_text mt.1) mt.2)
           (bodies para_text items)
  end.

Definition _parse_paragraphs_us (s : text) : list paragraph_unit :=
  match finditer no_flags s para_pattern with
  | [] => []
  | (first :: _) as paragraphs =>
      lead_row [] (lead_text s first)
      ++ flat_map (λ mt, item_rows (group1 s mt.1) mt.2)
           (bodies s paragraphs)
  end.

End Usa.

(** ** [parsers/taiwan.py] *)

Module Taiwan.

(** [[一二三四五六七八九十百千]] *)
Definition cjk_numeral : re :=
  Cls false (CChar <$> u "一二三四五六七八九十百千").

(** [(?: ^ | \n ) ( 第 \s* (?: \d+ | [一二三四五六七八九十百千]+ ) \s* 條
     (?: \s* 之 \s* \d+ )? )] *)
Definition article_pattern : re :=
  cat [Alt Bol (Lit NL);
       Grp 1 (cat [word "第"; star ws; Alt (plus digit) (plus cjk_numeral);
                   star ws; word "條";
                   opt (cat [star ws; word "之"; star ws; plus digit])])].

Definition candidates (s : text) : list match_obj :=
  finditer no_flags s article_pattern.

Fixpoint articles_loop (s : text) (ms : list match_obj) : list article :=
  match ms with
  | [] => []
  | m :: rest =>
      let chunk := chunk_of s m rest in
      match chunk with
      | [] => articles_loop s rest
      | _ =>
          {| art_id := strip (group1 s m); art_text := chunk;
             art_title := None; art_deleted := false |}
            :: articles_loop s rest
      end
  end.



End Taiwan.

(** ** Hierarchy markers and the join of [extract_structured_articles] *)

Inductive kind := part | chapter | section.

#[export] Instance kind_eq_dec : EqDecision kind.
Proof. solve_decision. Defined.

(** A marker dict: ["type"], ["title"], ["start_pos"]. *)
Record marker :=
  { h_type : kind;
    h_title : text;
    start_pos : nat }.

(** [list.sort(key=lambda x: x["start_pos"])]: stable. *)
Fixpoint insert_by_pos (h : marker) (l : list marker) : list marker :=
  match l with
  | [] => [h]
  | x :: l' =>
      if start_pos h <=? start_pos x then h :: l
      else x :: insert_by_pos h l'
  end.

Definition sort_by_pos (l : list marker) : list marker :=
  foldr insert_by_pos [] l.

(** [\s* < [^>]+ > \s* $] *)
Definition history_tag : re :=
  cat [star ws; lit "<"; plus (Cls true [one ">"]); lit ">"; star ws; Eol].

(** [h["title"] = re.sub(..., "", h["title"]).strip()] *)
Definition clean_title (h : marker) : marker :=
  {| h_type := h_type h;
     h_title := strip (sub no_flags (h_title h) history_tag []);
     start_pos := start_pos h |}.

Module KoreaHierarchy.

(** [(?: ^ | \n ) ( 제 \s* \d+ \s* 편 (?: 의 \d+ )? \s+ [^\n]* )], and the
    same with 장 and 절. *)
Definition level_pattern (unit_name : string) : re :=
  cat [Alt Bol (Lit NL);
       Grp 1 (cat [word "제"; star ws; plus digit; star ws; word unit_name;
                   opt (Cat (word "의") (plus digit)); plus ws;
                   star not_nl])].

Definition part_pattern : re := level_pattern "편".
Definition chapter_pattern : re := level_pattern "장".
Definition section_pattern : re := level_pattern "절".

Definition markers_of (k : kind) (p : re) (s : text) : list marker :=
  (λ m, {| h_type := k; h_title := strip (group1 s m);
           start_pos := m_start m |})
    <$> finditer no_flags s p.

Definition _detect_hierarchy_korean (s : text) : list marker :=
  sort_by_pos
    (clean_title
       <$> (markers_of part part_pattern s
            ++ markers_of chapter chapter_pattern s
            ++ markers_of section section_pattern s)).

End KoreaHierarchy.

(** The state of the join: the latest part, chapter and section title. *)
Record labels :=
  { latest_part : text;
    latest_chapter : text;
    latest_section : text }.

Definition no_labels : labels :=
  {| latest_part := []; latest_chapter := []; latest_section := [] |}.

Definition join_step (st : labels) (h : marker) : labels :=
  match h_type h with
  | part =>
      {| latest_part := h_title h; latest_chapter := [];
         latest_section := [] |}
  | chapter =>
      {| latest_part := latest_part st; latest_chapter := h_title h;
         latest_section := [] |}
  | section =>
      {| latest_part := latest_part st; latest_chapter := latest_chapter st;
         latest_section := h_title h |}
  end.

(** [for h in hierarchy: if h["start_pos"] > article_pos: break ...] *)
Fixpoint join_loop (hierarchy : list marker) (article_pos : Z) (st : labels)
  : labels :=
  match hierarchy with
  | [] => st
  | h :: rest =>
      if (article_pos <? Z.of_nat (start_pos h))%Z then st
      else join_loop rest article_pos (join_step st h)
  end.

Definition attach (hierarchy : list marker) (article_pos : Z) : labels :=
  join_loop hierarchy article_pos no_labels.

(** The joining rule in the words of its description: among the markers
    at or before the article, the last part; the last chapter since that
    part; the last section since that chapter. *)
Module JoinRule.





End JoinRule.

(** ** Dispatch and row emission of [parsers/__init__.py] *)

Inductive lang := english | chinese | korean.
Inductive fmt := standard | nz | hk | us.

#[export] Instance lang_eq_dec : EqDecision lang.
Proof. solve_decision. Defined.
#[export] Instance fmt_eq_dec : EqDecision fmt.
Proof. solve_decision. Defined.






Definition _parse_paragraphs_and_items (s : text) (l : lang) (f : fmt)
  : list paragraph_unit :=
  if bool_decide (f = us) then Usa._parse_paragraphs_us s
  else if bool_decide (l = chinese) then []
  else if bool_decide (l = korean) then Korea._parse_paragraphs_korean s
  else EpcParagraphs._parse_paragraphs_english s.

(** A row of the result frame.  The columns 편, 장, 절, 조문번호, 조문제목,
    항, 호, 목, 세목, 원문 carry the names of the structured record. *)
Record row :=
  { Part : text;
    Chapter : text;
Section : text;
ArticleId : text;
ArticleTitle : text;
Paragraph : text;
Item : text;
Subitem : text;
Subsubitem : text;
Text : text }.

(** The rows of one article, once its labels, title and cleaned text are
    known: one row when the decomposer finds nothing, else one row per
    unit. *)
Definition article_rows (h : labels) (article_id title article_text : text)
    (l : lang) (f : fmt) : list row :=
  match _parse_paragraphs_and_items article_text l f with
  | [] =>
      [{| Part := latest_part h; Chapter := latest_chapter h;
Section := latest_section h; ArticleId := article_id;
ArticleTitle := title; Paragraph := []; Item := []; Subitem := [];
Subsubitem := []; Text := article_text |}]
| paragraphs =>
(λ para, {| Part := latest_part h; Chapter := latest_chapter h;
Section := latest_section h; ArticleId := article_id;
ArticleTitle := title; Paragraph := paragraph para;
Item := item para; Subitem := subitem para;
Subsubitem := subsubitem para; Text := unit_text para |})
<$> paragraphs
end.


(** * Notions used to state the properties *)

(** ** What a match establishes *)

Module ReSpec.
Section Spec.
Variable fl : flags.
Variable s : text.

(** [iter R n]: [n] rounds of [R] in sequence. *)
Fixpoint iter (R : nat → captures → nat → captures → Prop) (n : nat)
    (i : nat) (c : captures) (j : nat) (c' : captures) : Prop :=
  match n with
  | 0 => j = i ∧ c' = c
  | S n' => ∃ m cm, R i c m cm ∧ iter R n' m cm j c'
  end.

Definition within (lo : nat) (hi : option nat) (n : nat) : Prop :=
  lo ≤ n ∧ match hi with Some h => n ≤ h | None => True end.

(** What a successful run of the matcher establishes: the span from [i]
    to [j] is in the language of [r] (look-ahead assertions seen from
    the matching side only). *)
Fixpoint matches (r : re) (i : nat) (c : captures) (j : nat) (c' : captures)
  : Prop :=
  match r with
  | Eps => j = i ∧ c' = c
  | Lit p =>
      ∃ x, s !! i = Some x ∧ lit_matches fl p x = true ∧ j = S i ∧ c' = c
  | Any =>
      ∃ x, s !! i = Some x ∧ any_matches fl x = true ∧ j = S i ∧ c' = c
  | Cls neg its =>
      ∃ x, s !! i = Some x ∧ cls_matches fl neg its x = true
           ∧ j = S i ∧ c' = c
  | Cat r1 r2 => ∃ m cm, matches r1 i c m cm ∧ matches r2 m cm j c'
  | Alt r1 r2 => matches r1 i c j c' ∨ matches r2 i c j c'
  | Rep _ lo hi r1 => ∃ n, within lo hi n ∧ iter (matches r1) n i c j c'
  | Grp n r1 => ∃ c0, matches r1 i c j c0 ∧ c' = <[n := (i, j)]> c0
  | Bol => at_bol fl s i = true ∧ j = i ∧ c' = c
  | Eol => at_eol fl s i = true ∧ j = i ∧ c' = c
  | Eos => at_eos s i = true ∧ j = i ∧ c' = c
  | Wordb => at_wordb s i = true ∧ j = i ∧ c' = c
  | Ahead r1 => j = i ∧ ∃ j', matches r1 i c j' c'
  | NotAhead r1 => j = i ∧ c' = c
  end.


(** The matches reported by [search] and [finditer]. *)
Definition found (r : re) (m : match_obj) : Prop :=
  matches r (m_start m) ∅ (m_end m) (m_caps m)
  ∧ m_start m ≤ m_end m ∧ m_end m ≤ length s.


(** Successive matches do not overlap: each starts at or after the end
    of the one before. *)
Inductive chain (r : re) : nat → list match_obj → Prop :=
| chain_nil i : chain r i []
| chain_cons i m ms :
    found r m → i ≤ m_start m → chain r (m_end m) ms →
    chain r i (m :: ms).


Definition sound_at (r : re) : Prop :=
  ∀ i c k res,
    run fl s r i c k = Some res →
    ∃ j c', matches r i c j c' ∧ k j c' = Some res.


End Spec.
End ReSpec.

(** ** Facts about the operations of [str] *)



(** ** Static facts about patterns *)

Module Shape.

(** Every code point with [str.isspace]. *)
Definition space_chars : list N :=
  [9; 10; 11; 12; 13; 28; 29; 30; 31; 32; 133; 160; 5760;
   8192; 8193; 8194; 8195; 8196; 8197; 8198; 8199; 8200; 8201; 8202;
   8232; 8233; 8239; 8287; 12288]%N.

(** Characters that never open or close an article id: white space and the
    closing bracket. *)
Definition outside_id : list N := 41%N :: space_chars.


Section Analyses.
Variable fl : flags.
Variable bad : list N.

Definition lit_avoids (p : N) : bool :=
  forallb (λ b, negb (lit_matches fl p b)) bad.
Definition cls_avoids (neg : bool) (its : list citem) : bool :=
  forallb (λ b, negb (cls_matches fl neg its b)) bad.
Definition any_avoids : bool :=
  forallb (λ b, negb (any_matches fl b)) bad.

(** Every match consumes at least one character, the first of which
    is not in [bad]. *)
Fixpoint head_avoids (r : re) : bool :=
  match r with
  | Lit p => lit_avoids p
  | Any => any_avoids
  | Cls neg its => cls_avoids neg its
  | Cat r1 _ => head_avoids r1
  | Alt r1 r2 => head_avoids r1 && head_avoids r2
  | Rep _ lo _ r1 => (0 <? lo) && head_avoids r1
  | Grp _ r1 => head_avoids r1
  | _ => false
  end.

End Analyses.

(** Group [n] does not occur in [r]. *)
Fixpoint no_group (n : nat) (r : re) : bool :=
  match r with
  | Cat r1 r2 | Alt r1 r2 => no_group n r1 && no_group n r2
  | Rep _ _ _ r1 | Ahead r1 => no_group n r1
  | Grp k r1 => negb (k =? n) && no_group n r1
  | _ => true
  end.

(** The line anchor [(?: ^ | \n )] and the group that follows it. *)
Definition is_anchor (r : re) : bool :=
  match r with
  | Alt Bol (Lit c) => (c =? NL)%N
  | _ => false
  end.

Definition group1_body (r : re) : option re :=
  match r with
  | Grp 1 x => Some x
  | _ => None
  end.

(** [anchored_group r = Some x]: [r] is [(?: ^ | \n ) ( x ) ...], and
    group 1 occurs nowhere else. *)
Fixpoint anchored_group (r : re) : option re :=
  match r with
  | Cat r1 r2 =>
      if is_anchor r1 then group1_body r2
      else if no_group 1 r2 then anchored_group r1 else None
  | _ => None
  end.

(** A line-anchored pattern whose group 1 begins with a character that
    is neither white space nor a closing bracket. *)
Definition line_anchored (fl : flags) (r : re) : bool :=
  match anchored_group r with
  | Some x => head_avoids fl outside_id x
  | None => false
  end.


End Shape.


(** ** The segmenters as one function of the grammar variant *)

Inductive variant := EPC | KOREA | USA.

(** The text the boundary pattern is run on, and its matches. *)
Definition scanned (v : variant) (text0 : text) : text :=
  match v with
  | EPC => Epc.cleaned text0
  | KOREA => text0
  | USA => Usa._clean_us_westlaw_metadata text0
  end.

Definition markers (v : variant) (s : text) : list match_obj :=
  match v with
  | EPC => Epc.candidates s
  | KOREA => Korea.candidates s
  | USA => Usa.candidates s
  end.

(** The segmenter from the point where the text is scanned for markers;
    [segment EPC] is [Epc._split_english], [segment KOREA] is
    [Korea._split_korean] and [segment USA] is [Usa._split_us_english]. *)
Definition split_scanned (v : variant) (s : text) : list article :=
  match v with
  | EPC => Epc.split_cleaned s
  | KOREA => Korea._split_korean s
  | USA => Usa.split_cleaned s
  end.

Definition segment (v : variant) (text0 : text) : list article :=
  split_scanned v (scanned v text0).

(** The normalized id of a marker. *)
Definition marker_id (v : variant) (s : text) (m : match_obj) : text :=
  match v with
  | EPC | KOREA => strip (group1 s m)
  | USA => strip (replace_char Usa.SECTION_SIGN [] (strip (group1 s m)))
  end.

(** A unit stems from a marker when it carries the marker's id, with the
    deletion suffix or without. *)
Definition unit_of (v : variant) (s : text) (m : match_obj) (a : article)
  : Prop :=
  art_id a = marker_id v s m ∨ art_id a = marker_id v s m ++ DELETED_SUFFIX.

(** No candidate is removed by the filters of the variant: the numeral
    filter and the minimum-content filter of the EPC grammar, the
    minimum-content filter of the US grammar; the Korean grammar has
    none. *)
Definition passes_filters (v : variant) (s : text) (ms : list match_obj)
  : Prop :=
  match v with
  | EPC =>
      Forall (λ m, Epc.long_numeral (marker_id EPC s m) = false) ms
      ∧ Forall (λ a, keep_entry Epc.MIN_CONTENT_LEN a = true)
          (Epc.prepared s ms)
  | KOREA => True
  | USA =>
      Forall (λ a, keep_entry Usa.MIN_CONTENT_LEN a = true)
        (Usa.prepared s ms)
  end.


(** Closed decidable goals are settled by evaluation. *)
Ltac by_compute :=
  lazymatch goal with
  | |- ?P => refine (bool_decide_unpack P _); vm_compute; reflexivity
  end.

(** The order of a position-sorted marker list. *)
Definition by_pos (a b : marker) : Prop := start_pos a ≤ start_pos b.

#[export] Instance by_pos_dec : RelDecision by_pos.
Proof. intros a b. unfold by_pos. apply _. Defined.

#[export] Instance marker_eq_dec : EqDecision marker.
Proof. solve_decision. Defined.

#[export] Instance labels_eq_dec : EqDecision labels.
Proof. solve_decision. Defined.








(** * Texts used as examples *)

(** A text with one marker whose body is shorter than [MIN_CONTENT_LEN]. *)
Definition short_article : text := u "Article 1
Too short".

(** Example 2 of the description, with bodies that pass the filter. *)
Definition two_articles : text := u "Article 1
Scope
This Convention applies to patents granted in the territories of the Contracting States.
Article 2
Definitions
For the purposes of this Convention the following definitions apply throughout the text.".



(** Example 4 of the description: the same article in a contents line
    and with its body. *)
Definition toc_and_body : text := u "Article 3 Scope
Article 3
Scope
This Convention applies to every European patent application and to every patent.".



(** A deleted Korean article. *)
Definition korean_deleted : text := u "제1조(목적) 이 법은 특허를 보호한다.
제2조삭제 <2014. 6. 11.>".


(** A marker whose numeral is two article numbers run together, as in
    the comment of the numeral filter, and a sound article behind it. *)
Definition long_numeral : text := u "Article 169196
Transitional provisions and the old numbers that the extraction of the page has run together here.
Article 2
Definitions
For the purposes of this Convention the following definitions apply throughout the text.".



(** A Korean statute with a part, two chapters and a section. *)
Definition korean_headings : text := u "제1편 총칙
제1장 통칙
제1조(목적) 이 법은 발명을 보호한다.
제2장 특허요건
제1절 출원
제29조(특허요건) 산업상 이용할 수 있는 발명".

(** An article body whose first paragraph is a list of definitions. *)
Definition definitions_body : text := u "(1) In this Convention:
(a) European patent means a patent granted under it;
(b) application means a European patent application;
(c) Office means the European Patent Office.
(2) Any person may file:
(a) a request;
(b) a notice.".






(** A text of the European Patent Convention with a margin reference
    behind the first heading: the cleaner takes the reference, the body
    under it and the next heading for one reference. *)
Definition margin_reference : text := u "European Patent Convention
Article 16 Art. 15
The Receiving Division shall be responsible for the examination on filing and the examination as to formal requirements
Article 17
Filing. The Legal Division shall be responsible for decisions in respect of entries in the Register of European Patents and the list of Attorneys.".

(** A section heading of a Westlaw print whose title line is metadata. *)
Definition effective_line : text :=
  u "§ 101. " ++ NL
    :: u "Effective: January 1, 2020 and for all applications filed thereafter under this title".


(** * Facts about the matcher *)

Module ReFacts.
Import ReSpec.
Section Sound.
Variable fl : flags.
Variable s : text.

Local Abbreviation matches := (matches fl s).
Local Abbreviation sound_at := (sound_at fl s).
Local Abbreviation found := (found fl s).
Local Abbreviation chain := (chain fl s).

Lemma orelse_Some {A} (x y : option A) (v : A) :
  orelse x y = Some v → x = Some v ∨ y = Some v.
Proof. destruct x; simpl; auto. Qed.

Lemma step_Some ok i c k res :
  step s ok i c k = Some res →
  ∃ x, s !! i = Some x ∧ ok x = true ∧ k (S i) c = Some res.
Proof.
  unfold step. destruct (s !! i) as [x|]; [|done].
  destruct (ok x) eqn:E; [|done]. eauto.
Qed.

Lemma guard_Some b i c k res :
  guard b i c k = Some res → b = true ∧ k i c = Some res.
Proof. unfold guard. destruct b; [auto|done]. Qed.

Lemma rep_loop_sound r1 greedy lo hi k :
  sound_at r1 →
  ∀ fuel cnt i c res,
    match hi with Some h => cnt ≤ h | None => True end →
    rep_loop (run fl s r1) greedy lo hi k fuel cnt i c = Some res →
    ∃ n j c', iter (matches r1) n i c j c'
              ∧ lo ≤ cnt + n
              ∧ match hi with Some h => cnt + n ≤ h | None => True end
              ∧ k j c' = Some res.
Proof.
  intros IH. induction fuel as [|fuel IHf]; intros cnt i c res Hhi H; [done|].
  simpl in H.
  assert (Hstop : (if lo <=? cnt then k i c else None) = Some res →
                  ∃ n j c', iter (matches r1) n i c j c'
                    ∧ lo ≤ cnt + n
                    ∧ match hi with Some h => cnt + n ≤ h | None => True end
                    ∧ k j c' = Some res).
  { destruct (Nat.leb_spec lo cnt); [|done]. intros Hk.
    exists 0, i, c. rewrite Nat.add_0_r. simpl. done. }
  assert (Hmore :
    (if match hi with Some h => cnt <? h | None => true end
     then run fl s r1 i c
            (λ j c0, if (j =? i) && (lo <=? cnt) then None
                     else rep_loop (run fl s r1) greedy lo hi k fuel
                            (S cnt) j c0)
     else None) = Some res →
    ∃ n j c', iter (matches r1) n i c j c'
              ∧ lo ≤ cnt + n
              ∧ match hi with Some h => cnt + n ≤ h | None => True end
              ∧ k j c' = Some res).
  { destruct (match hi with Some h => cnt <? h | None => true end) eqn:Eb;
      [|done].
    intros Hrun. apply IH in Hrun as (j & c1 & Hm & Hk).
    destruct ((j =? i) && (lo <=? cnt)); [done|].
    apply IHf in Hk as (n & j' & c' & Hit & Hlo & Hh & Hk).
    - exists (S n), j', c'. simpl. split; [eauto|].
      rewrite Nat.add_succ_r. done.
    - destruct hi as [h|]; [|done]. apply Nat.ltb_lt in Eb. lia. }
  destruct greedy; apply orelse_Some in H as [H|H]; auto.
Qed.

Lemma run_sound r : sound_at r.
Proof.
  induction r as [| p | | neg its | r1 IH1 r2 IH2 | r1 IH1 r2 IH2
                 | g lo hi r1 IH1 | n r1 IH1 | | | | | r1 IH1 | r1 IH1];
    intros i c k res H; cbn -[rep_loop] in H.
  - exists i, c. done.
  - apply step_Some in H as (x & ? & ? & ?). exists (S i), c. simpl. eauto 10.
  - apply step_Some in H as (x & ? & ? & ?). exists (S i), c. simpl. eauto 10.
  - apply step_Some in H as (x & ? & ? & ?). exists (S i), c. simpl. eauto 10.
  - apply IH1 in H as (m & cm & Hm1 & H). apply IH2 in H as (j & c' & Hm2 & H).
    exists j, c'. simpl. eauto 10.
  - apply orelse_Some in H as [H|H]; [apply IH1 in H|apply IH2 in H];
      destruct H as (j & c' & ? & ?); exists j, c'; simpl; auto.
  - apply rep_loop_sound in H as (n & j & c' & Hit & Hlo & Hh & Hk); [|done|].
    + exists j, c'. split; [|done]. exists n. split; [|done]. split; [lia|].
      destruct hi; [lia|done].
    + destruct hi; [lia|done].
  - apply IH1 in H as (j & c0 & Hm & Hk). exists j, (<[n := (i, j)]> c0).
    simpl. eauto.
  - apply guard_Some in H as [? ?]. exists i, c. done.
  - apply guard_Some in H as [? ?]. exists i, c. done.
  - apply guard_Some in H as [? ?]. exists i, c. done.
  - apply guard_Some in H as [? ?]. exists i, c. done.
  - destruct (run fl s r1 i c _) as [[j' c1]|] eqn:E; [|done].
    apply IH1 in E as (j & c' & Hm & [= -> ->]).
    exists i, c1. simpl. eauto.
  - destruct (run fl s r1 i c _) as [[j' c1]|] eqn:E; [done|].
    exists i, c. done.
Qed.

Lemma iter_bounds (R : nat → captures → nat → captures → Prop) :
  (∀ i c j c', R i c j c' → i ≤ j ∧ (i ≤ length s → j ≤ length s)) →
  ∀ n i c j c', iter R n i c j c' → i ≤ j ∧ (i ≤ length s → j ≤ length s).
Proof.
  intros HR. induction n as [|n IH]; simpl; intros i c j c'.
  - intros [-> _]. done.
  - intros (m & cm & H1 & H2). apply HR in H1. apply IH in H2. lia.
Qed.

(** A match never moves backwards and stays inside the text. *)
Lemma matches_bounds r i c j c' :
  matches r i c j c' → i ≤ j ∧ (i ≤ length s → j ≤ length s).
Proof.
  revert i c j c'.
  induction r as [| p | | neg its | r1 IH1 r2 IH2 | r1 IH1 r2 IH2
                 | g lo hi r1 IH1 | n r1 IH1 | | | | | r1 IH1 | r1 IH1];
    simpl; intros i c j c' H.
  - destruct H as [-> _]. done.
  - destruct H as (x & Hx & _ & -> & _). apply lookup_lt_Some in Hx. lia.
  - destruct H as (x & Hx & _ & -> & _). apply lookup_lt_Some in Hx. lia.
  - destruct H as (x & Hx & _ & -> & _). apply lookup_lt_Some in Hx. lia.
  - destruct H as (m & cm & H1 & H2). apply IH1 in H1. apply IH2 in H2. lia.
  - destruct H as [H|H]; eauto.
  - destruct H as (n & _ & H). eapply iter_bounds; eauto.
  - destruct H as (c0 & H & _). eauto.
  - destruct H as (_ & -> & _). done.
  - destruct H as (_ & -> & _). done.
  - destruct H as (_ & -> & _). done.
  - destruct H as (_ & -> & _). done.
  - destruct H as (-> & _). done.
  - destruct H as (-> & _). done.
Qed.


Lemma match_at_found r i adv m :
  i ≤ length s →
  match_at fl s r i adv = Some m → found r m ∧ m_start m = i.
Proof.
  unfold match_at. intros Hi H.
  destruct (run fl s r i ∅ _) as [[j c]|] eqn:E; [|done].
  injection H as <-. simpl.
  apply run_sound in E as (j' & c' & Hm & Hk).
  destruct (adv && (j' =? i)); [done|]. injection Hk as -> ->.
  pose proof (matches_bounds _ _ _ _ _ Hm). unfold found. simpl.
  split; [|done]. split; [done|]. lia.
Qed.

Lemma search_loop_found r fuel i adv m :
  i + fuel ≤ length s →
  search_loop fl s r fuel i adv = Some m → found r m ∧ i ≤ m_start m.
Proof.
  revert i adv. induction fuel as [|fuel IH]; intros i adv Hi; simpl.
  - destruct (match_at fl s r i adv) eqn:E; [|done]. intros [= ->].
    apply match_at_found in E as [? ->]; [done|lia].
  - destruct (match_at fl s r i adv) eqn:E.
    + intros [= ->]. apply match_at_found in E as [? ->]; [done|lia].
    + intros H. apply IH in H as [? ?]; [|lia]. split; [done|lia].
Qed.

Lemma search_from_found r i adv m :
  i ≤ length s →
  search_from fl s r i adv = Some m → found r m ∧ i ≤ m_start m.
Proof. intros Hi. apply search_loop_found. lia. Qed.


Lemma finditer_loop_chain r fuel i adv :
  chain r i (finditer_loop fl s r fuel i adv).
Proof.
  revert i adv. induction fuel as [|fuel IH]; intros i adv; simpl.
  - constructor.
  - destruct (Nat.ltb_spec (length s) i); [constructor|].
    destruct (search_from fl s r i adv) as [m|] eqn:E; [|constructor].
    apply search_from_found in E as [? ?]; [|done].
    constructor; auto.
Qed.

Lemma finditer_chain r : chain r 0 (finditer fl s r).
Proof. apply finditer_loop_chain. Qed.

End Sound.
End ReFacts.

Module StrFacts.






Lemma lstrip_suffix s : ∃ l, s = l ++ lstrip s.
Proof.
  induction s as [|c s [l IH]]; simpl.
  - by exists [].
  - destruct (Unicode.isspace c).
    + exists (c :: l). simpl. by rewrite <- IH.
    + by exists [].
Qed.





Lemma lstrip_nonspace c l : Unicode.isspace c = false → lstrip (c :: l) = c :: l.
Proof. intros H. simpl. by rewrite H. Qed.

Lemma lstrip_snoc_nonspace l c :
  Unicode.isspace c = false → ∃ l', lstrip (l ++ [c]) = l' ++ [c].
Proof.
  intros H. induction l as [|x l [l' IH]]; simpl.
  - rewrite H. by exists [].
  - destruct (Unicode.isspace x); [eauto|]. by exists (x :: l).
Qed.

(** A text that begins with a character that is not white space keeps
    that character under [strip]. *)
Lemma strip_cons_nonspace c l :
  Unicode.isspace c = false → ∃ l', strip (c :: l) = c :: l'.
Proof.
  intros H. unfold strip. rewrite lstrip_nonspace by done.
  unfold rstrip. rewrite reverse_cons.
  destruct (lstrip_suffix (reverse l ++ [c])) as [k Hk].
  destruct (lstrip_snoc_nonspace (reverse l) c H) as [l' Hl'].
  rewrite Hl'. rewrite reverse_app. simpl. eauto.
Qed.

Lemma strip_nonempty c l : Unicode.isspace c = false → strip (c :: l) ≠ [].
Proof. intros H. by destruct (strip_cons_nonspace c l H) as [l' ->]. Qed.


Lemma slice_cons a b s x :
  s !! a = Some x → a < b → ∃ l, slice a b s = x :: l.
Proof.
  intros Hx Hab. unfold slice.
  rewrite (drop_S _ _ _ Hx).
  destruct (b - a) as [|n] eqn:E; [lia|]. simpl. eauto.
Qed.

Lemma slice_one_NL a s :
  slice a (a + 1) s = [NL] ↔ s !! a = Some NL.
Proof.
  unfold slice. replace (a + 1 - a) with 1 by lia.
  destruct (s !! a) as [x|] eqn:E.
  - rewrite (drop_S _ _ _ E). simpl. rewrite take_0. split; congruence.
  - rewrite drop_ge by (by apply lookup_ge_None). simpl. split; congruence.
Qed.

End StrFacts.


Module ShapeFacts.
Import ReSpec ReFacts Shape.

Lemma isspace_enum x : Unicode.isspace x = true → x ∈ space_chars.
Proof.
  unfold Unicode.isspace, Unicode.in_ranges, Unicode.unicode_space.
  cbn [existsb fst snd]. rewrite !orb_true_iff, !andb_true_iff, !N.leb_le.
  intros H. apply list_elem_of_In. unfold space_chars. cbn [In]. lia.
Qed.

Lemma outside_id_space x : x ∉ outside_id → Unicode.isspace x = false.
Proof.
  intros H. destruct (Unicode.isspace x) eqn:E; [|done].
  apply isspace_enum in E. exfalso. apply H. by right.
Qed.

Lemma outside_id_NL x : x ∉ outside_id → x ≠ NL.
Proof. intros H ->. apply H. unfold outside_id, space_chars. set_solver. Qed.

Lemma fold_case_NL x : Unicode.fold_case x = NL → x = NL.
Proof.
  unfold Unicode.fold_case, Unicode.is_ascii_upper, NL.
  destruct (_ && _) eqn:E1.
  { apply andb_true_iff in E1 as [?%N.leb_le ?%N.leb_le]. lia. }
  destruct (_ || _); [done|]. destruct (_ =? _)%N; [done|].
  destruct (_ =? _)%N; [done|]. done.
Qed.

Lemma lit_matches_NL fl x : lit_matches fl NL x = true → x = NL.
Proof.
  unfold lit_matches. destruct (IGNORECASE fl).
  - intros H%N.eqb_eq. symmetry in H. by apply fold_case_NL in H.
  - by intros H%N.eqb_eq.
Qed.

Section WithText.
Variable fl : flags.
Variable s : text.

Lemma avoid_sound (ok : N → bool) (bad : list N) x :
  forallb (λ b, negb (ok b)) bad = true → ok x = true → x ∉ bad.
Proof.
  rewrite forallb_forall. intros H Hx Hin.
  apply list_elem_of_In, H in Hin. by rewrite Hx in Hin.
Qed.

Lemma iter_consumes R n i c j c' :
  (∀ i c j c', R i c j c' → i ≤ j) →
  iter R n i c j c' → i ≤ j.
Proof.
  intros HR. revert i c. induction n as [|n IH]; simpl; intros i c.
  - by intros [-> _].
  - intros (m & cm & H1 & H2). apply HR in H1. apply IH in H2. lia.
Qed.

Lemma matches_le r i c j c' : matches fl s r i c j c' → i ≤ j.
Proof. intros H. by apply matches_bounds in H as [? _]. Qed.


Lemma head_avoids_sound bad r i c j c' :
  head_avoids fl bad r = true → matches fl s r i c j c' →
  ∃ x, s !! i = Some x ∧ (x ∉ bad) ∧ i < j.
Proof.
  revert i c j c'.
  induction r as [| p | | neg its | r1 IH1 r2 IH2 | r1 IH1 r2 IH2
                 | g lo hi r1 IH1 | n r1 IH1 | | | | | r1 IH1 | r1 IH1];
    simpl; intros i c j c' Hc H; try done.
  - destruct H as (x & Hx & Hm & -> & _). exists x.
    split; [done|]. split; [|lia]. by eapply avoid_sound.
  - destruct H as (x & Hx & Hm & -> & _). exists x.
    split; [done|]. split; [|lia]. by eapply avoid_sound.
  - destruct H as (x & Hx & Hm & -> & _). exists x.
    split; [done|]. split; [|lia].
    by eapply (avoid_sound (cls_matches fl neg its)).
  - destruct H as (m & cm & H1 & H2).
    destruct (IH1 _ _ _ _ Hc H1) as (x & ? & ? & ?).
    pose proof (matches_le _ _ _ _ _ H2). exists x. split_and!; [done..|lia].
  - apply andb_true_iff in Hc as [Hc1 Hc2]. destruct H; eauto.
  - apply andb_true_iff in Hc as [Hlo Hc]. apply Nat.ltb_lt in Hlo.
    destruct H as (n & [Hn _] & H). destruct n as [|n]; [lia|].
    simpl in H. destruct H as (m & cm & H1 & H2).
    destruct (IH1 _ _ _ _ Hc H1) as (x & ? & ? & ?).
    apply iter_consumes in H2; [|intros; eapply matches_le; eassumption].
    exists x. split_and!; [done..|lia].
  - destruct H as (c0 & H & _). eauto.
Qed.


Lemma iter_no_group R n k i c j c' :
  (∀ i c j c', R i c j c' → c' !! k = c !! k) →
  iter R n i c j c' → c' !! k = c !! k.
Proof.
  intros HR. revert i c. induction n as [|n IH]; simpl; intros i c.
  - by intros [_ ->].
  - intros (m & cm & H1 & H2). apply HR in H1. apply IH in H2. congruence.
Qed.

Lemma no_group_sound k r i c j c' :
  no_group k r = true → matches fl s r i c j c' → c' !! k = c !! k.
Proof.
  revert i c j c'.
  induction r as [| p | | neg its | r1 IH1 r2 IH2 | r1 IH1 r2 IH2
                 | g lo hi r1 IH1 | n r1 IH1 | | | | | r1 IH1 | r1 IH1];
    simpl; intros i c j c' Hc H;
    try (destruct H as (? & _ & _ & _ & ->); done);
    try (destruct H as (_ & _ & ->); done);
    try (destruct H as (_ & ->); done).
  - apply andb_true_iff in Hc as [Hc1 Hc2].
    destruct H as (m & cm & H1 & H2).
    rewrite (IH2 _ _ _ _ Hc2 H2). eauto.
  - apply andb_true_iff in Hc as [Hc1 Hc2]. destruct H; eauto.
  - destruct H as (n & _ & H). eapply iter_no_group; [|done]. eauto.
  - apply andb_true_iff in Hc as [Hn Hc]. destruct H as (c0 & H & ->).
    apply negb_true_iff, Nat.eqb_neq in Hn.
    rewrite lookup_insert_ne by done. eauto.
  - destruct H as (-> & j' & H). eauto.
Qed.

Lemma is_anchor_sound r i c m cm :
  is_anchor r = true → matches fl s r i c m cm →
  cm = c ∧ (m = i ∨ (s !! i = Some NL ∧ m = S i)).
Proof.
  destruct r as [| | | | | r1 r2 | | | | | | | |]; try done.
  destruct r1; try done. destruct r2 as [|p| | | | | | | | | | | |]; try done.
  simpl. intros Hp%N.eqb_eq. subst p.
  intros [(_ & -> & ->)|(x & Hx & Hm & -> & ->)]; [auto|].
  apply lit_matches_NL in Hm as ->. auto.
Qed.

Lemma group1_body_sound r x : group1_body r = Some x → r = Grp 1 x.
Proof.
  destruct r as [| | | | | | |n r1| | | | | |]; try done.
  destruct n as [|[|n]]; try done. simpl. congruence.
Qed.

Lemma anchored_group_sound r x i c j c' :
  anchored_group r = Some x → matches fl s r i c j c' →
  ∃ g e c0 c1,
    (g = i ∨ (s !! i = Some NL ∧ g = S i))
    ∧ matches fl s x g c0 e c1 ∧ c' !! 1 = Some (g, e) ∧ e ≤ j.
Proof.
  revert i c j c'.
  induction r as [| p | | neg its | r1 IH1 r2 IH2 | r1 IH1 r2 IH2
                 | g lo hi r1 IH1 | n r1 IH1 | | | | | r1 IH1 | r1 IH1];
    try done.
  intros i c j c' Hx H. cbn [anchored_group] in Hx.
  cbn [matches] in H. destruct H as (m & cm & H1 & H2).
  destruct (is_anchor r1) eqn:Ea.
  - apply group1_body_sound in Hx as ->.
    apply is_anchor_sound in H1 as [-> Hm]; [|done].
    simpl in H2. destruct H2 as (c0 & H2 & ->).
    exists m, j, c, c0. split_and!; [naive_solver|done| |done].
    apply lookup_insert_eq.
  - destruct (no_group 1 r2) eqn:En; [|done].
    destruct (IH1 _ _ _ _ Hx H1) as (g & e & c0 & c1 & Hg & Hm & Hl & He).
    exists g, e, c0, c1. split_and!; [done..| |].
    + rewrite (no_group_sound _ _ _ _ _ _ En H2). done.
    + apply matches_le in H2. lia.
Qed.

(** A match of a line-anchored pattern: the chunk starts with the
    first character of group 1, which is not white space. *)
Lemma line_anchored_found r m :
  line_anchored fl r = true → found fl s r m →
  ∃ x, s !! chunk_start s m = Some x ∧ (x ∉ outside_id)
       ∧ chunk_start s m < m_end m.
Proof.
  unfold line_anchored. destruct (anchored_group r) as [x|] eqn:Ex; [|done].
  intros Hh (Hm & _ & _).
  destruct (anchored_group_sound _ _ _ _ _ _ Ex Hm)
    as (g & e & c0 & c1 & Hg & Hx & _ & He).
  destruct (head_avoids_sound _ _ _ _ _ _ Hh Hx) as (y & Hy & Hbad & Hlt).
  exists y. unfold chunk_start.
  destruct Hg as [->|[HNL ->]].
  - rewrite bool_decide_eq_false_2.
    + split_and!; [done..|lia].
    + rewrite StrFacts.slice_one_NL. rewrite Hy. intros [= ->].
      by apply outside_id_NL in Hbad.
  - rewrite bool_decide_eq_true_2 by (by apply StrFacts.slice_one_NL).
    rewrite Nat.add_1_r. split_and!; [done..|lia].
Qed.

End WithText.
End ShapeFacts.


Module SegmentFacts.
Import ReSpec ReFacts Shape ShapeFacts StrFacts.

Lemma chunk_nonempty fl s r i m rest :
  line_anchored fl r = true → chain fl s r i (m :: rest) →
  chunk_of s m rest ≠ [].
Proof.
  intros Hr Hc. inversion Hc as [|? ? ? Hf Hi Hrest]; subst.
  destruct (line_anchored_found _ _ _ _ Hr Hf) as (x & Hx & Hbad & Hlt).
  assert (m_end m ≤ chunk_end s rest).
  { destruct rest as [|m' rest]; simpl.
    - by destruct Hf as (_ & _ & ?).
    - by inversion Hrest. }
  unfold chunk_of.
  destruct (slice_cons (chunk_start s m) (chunk_end s rest) s x Hx) as [l ->];
    [lia|].
  apply strip_nonempty. by apply outside_id_space.
Qed.

Lemma chain_tail fl s r i m ms :
  chain fl s r i (m :: ms) → chain fl s r (m_end m) ms.
Proof. by inversion 1. Qed.

(** *** The duplicate pass *)

Lemma seen_fold_other (l : list article) (seen : gmap text article) k :
  Forall (λ a, art_id a ≠ k) l → foldl seen_step seen l !! k = seen !! k.
Proof.
  revert seen. induction l as [|a l IH]; intros seen Hl; [done|].
  apply Forall_cons in Hl as [Ha Hl]. simpl. rewrite IH by done.
  unfold seen_step. destruct (seen !! art_id a) as [b|].
  - destruct (_ <? _); [|done]. by rewrite lookup_insert_ne.
  - by rewrite lookup_insert_ne.
Qed.

Lemma dedup_app (l1 l2 : list article) :
  dedup (l1 ++ l2) = foldl seen_step (dedup l1) l2.
Proof. unfold dedup. by rewrite foldl_app. Qed.

Lemma dedup_unique (l : list article) a :
  NoDup (art_id <$> l) → a ∈ l → dedup l !! art_id a = Some a.
Proof.
  intros Hnd Hin. apply list_elem_of_split in Hin as (l1 & l2 & ->).
  rewrite fmap_app, fmap_cons in Hnd.
  apply NoDup_app in Hnd as (_ & H12 & Hnd2).
  apply NoDup_cons in Hnd2 as [Ha2 _].
  rewrite dedup_app. simpl. rewrite seen_fold_other.
  - assert (dedup l1 !! art_id a = None) as Hnone.
    { unfold dedup. rewrite seen_fold_other; [done|].
      apply Forall_forall. intros x Hx Heq.
      apply (H12 (art_id a)); [|left].
      rewrite <- Heq. by apply list_elem_of_fmap_2. }
    unfold seen_step. rewrite Hnone. apply lookup_insert_eq.
  - apply Forall_forall. intros x Hx Heq. apply Ha2.
    rewrite <- Heq. by apply list_elem_of_fmap_2.
Qed.



Lemma length_filter_lookup (n : nat) (seen : gmap text article) (k : text)
    (a : article) :
  length_filter n seen !! k = Some a ↔
  seen !! k = Some a ∧ keep_entry n a = true.
Proof. unfold length_filter. by rewrite map_lookup_filter_Some. Qed.

(** *** The order pass *)



Lemma id_order_fold_all (f : gmap text article) (l : list article) acc :
  Forall (λ a, is_Some (f !! art_id a)) l →
  NoDup (acc ++ (art_id <$> l)) →
  foldl (id_order_step f) acc l = acc ++ (art_id <$> l).
Proof.
  revert acc. induction l as [|a l IH]; intros acc Hall Hnd; simpl.
  - by rewrite app_nil_r.
  - apply Forall_cons in Hall as [Ha Hall].
    unfold id_order_step at 2.
    rewrite bool_decide_eq_true_2 by done.
    rewrite bool_decide_eq_false_2; simpl.
    + rewrite IH; [by rewrite <- app_assoc|done|by rewrite <- app_assoc].
    + apply NoDup_app in Hnd as (_ & Hd & _). intros Hin.
      apply (Hd _ Hin). rewrite fmap_cons. by left.
Qed.

Lemma id_order_all (f : gmap text article) (l : list article) :
  Forall (λ a, is_Some (f !! art_id a)) l → NoDup (art_id <$> l) →
  id_order f l = art_id <$> l.
Proof. intros. unfold id_order. by rewrite id_order_fold_all. Qed.

Lemma emit_all (f : gmap text article) (l : list article) :
  Forall (λ a, f !! art_id a = Some a) l →
  emit f (art_id <$> l) = emit_entry <$> l.
Proof.
  unfold emit. induction 1 as [|a l Ha _ IH]; [done|].
  rewrite !fmap_cons. cbn [omap list_omap]. rewrite Ha. cbn. by f_equal.
Qed.

(** With distinct ids and nothing filtered, the three passes emit the
    prepared articles as they stand. *)
Lemma passes_keep_all (n : nat) (raw : list article) :
  NoDup (art_id <$> raw) →
  Forall (λ a, keep_entry n a = true) raw →
  let filtered := length_filter n (dedup raw) in
  emit filtered (id_order filtered raw) = emit_entry <$> raw.
Proof.
  intros Hnd Hkeep filtered.
  assert (Forall (λ a, filtered !! art_id a = Some a) raw) as Hall.
  { apply Forall_forall. intros a Ha. apply length_filter_lookup. split.
    - by apply dedup_unique.
    - by eapply Forall_forall in Hkeep. }
  rewrite id_order_all; [by apply emit_all| |done].
  eapply Forall_impl; [exact Hall|]. simpl. intros a ->. by eexists.
Qed.

Lemma emit_entry_id a :
  art_id (emit_entry a) = art_id a
  ∨ art_id (emit_entry a) = art_id a ++ DELETED_SUFFIX.
Proof. unfold emit_entry. destruct (art_deleted a); simpl; auto. Qed.

End SegmentFacts.

Module CountFacts.
Import ReSpec ReFacts Shape ShapeFacts StrFacts SegmentFacts.

Lemma epc_anchored : line_anchored flag_I Epc.article_pattern = true.
Proof. vm_compute. reflexivity. Qed.
Lemma korea_anchored : line_anchored no_flags Korea.article_pattern = true.
Proof. vm_compute. reflexivity. Qed.
Lemma usa_anchored : line_anchored no_flags Usa.article_pattern = true.
Proof. vm_compute. reflexivity. Qed.

Lemma korea_loop_units s i ms :
  chain no_flags s Korea.article_pattern i ms →
  Forall2 (unit_of KOREA s) ms (Korea.articles_loop s ms).
Proof.
  revert i. induction ms as [|m ms IH]; intros i Hc;
    cbn [Korea.articles_loop]; [constructor|].
  pose proof (chunk_nonempty _ _ _ _ _ _ korea_anchored Hc) as Hne.
  destruct (chunk_of s m ms) as [|x chunk] eqn:E; [done|].
  constructor; [|by eapply IH, chain_tail].
  unfold unit_of, marker_id.
  destruct (match_ no_flags (x :: chunk) Korea.deleted_pattern); simpl; auto.
Qed.

Lemma epc_raw_ids s i ms :
  chain flag_I s Epc.article_pattern i ms →
  Forall (λ m, Epc.long_numeral (marker_id EPC s m) = false) ms →
  Forall2 (λ m a, art_id a = marker_id EPC s m) ms (Epc.raw_articles s ms).
Proof.
  revert i. induction ms as [|m ms IH]; intros i Hc Hnum;
    cbn [Epc.raw_articles]; [constructor|].
  apply Forall_cons in Hnum as [Hm Hnum].
  pose proof (chunk_nonempty _ _ _ _ _ _ epc_anchored Hc) as Hne.
  destruct (chunk_of s m ms) as [|x chunk] eqn:E; [done|].
  unfold marker_id, group1 in Hm. rewrite Hm.
  constructor; [done|]. eapply IH; [by eapply chain_tail|done].
Qed.

Lemma usa_raw_ids s i ms :
  chain no_flags s Usa.article_pattern i ms →
  Forall2 (λ m a, art_id a = marker_id USA s m) ms (Usa.raw_articles s ms).
Proof.
  revert i. induction ms as [|m ms IH]; intros i Hc;
    cbn [Usa.raw_articles]; [constructor|].
  pose proof (chunk_nonempty _ _ _ _ _ _ usa_anchored Hc) as Hne.
  destruct (chunk_of s m ms) as [|x chunk] eqn:E; [done|].
  constructor; [done|]. by eapply IH, chain_tail.
Qed.

Lemma epc_mark_deleted_id a : art_id (Epc.mark_deleted a) = art_id a.
Proof. unfold Epc.mark_deleted. by destruct (search _ _ _). Qed.
Lemma usa_mark_deleted_id a : art_id (Usa.mark_deleted a) = art_id a.
Proof. unfold Usa.mark_deleted. by destruct (_ || _). Qed.

Lemma Forall2_ids {A} (f : A → text) (ms : list A) (l : list article) :
  Forall2 (λ m a, art_id a = f m) ms l → art_id <$> l = f <$> ms.
Proof. induction 1; simpl; [done|]. by f_equal. Qed.

Lemma epc_prepared_ids s i ms :
  chain flag_I s Epc.article_pattern i ms →
  Forall (λ m, Epc.long_numeral (marker_id EPC s m) = false) ms →
  Forall2 (λ m a, art_id a = marker_id EPC s m) ms (Epc.prepared s ms).
Proof.
  intros Hc Hn. unfold Epc.prepared.
  apply Forall2_fmap_r, Forall2_fmap_r.
  eapply Forall2_impl; [by eapply epc_raw_ids|].
  intros m a <-. unfold compose.
  etrans; [apply epc_mark_deleted_id|]. reflexivity.
Qed.

Lemma usa_prepared_ids s i ms :
  chain no_flags s Usa.article_pattern i ms →
  Forall2 (λ m a, art_id a = marker_id USA s m) ms (Usa.prepared s ms).
Proof.
  intros Hc. unfold Usa.prepared. apply Forall2_fmap_r.
  eapply Forall2_impl; [by eapply usa_raw_ids|].
  intros m a <-. apply usa_mark_deleted_id.
Qed.

Lemma emitted_units v s ms (l : list article) :
  Forall2 (λ m a, art_id a = marker_id v s m) ms l →
  Forall2 (unit_of v s) ms (emit_entry <$> l).
Proof.
  intros H. apply Forall2_fmap_r. eapply Forall2_impl; [exact H|].
  intros m a Ha. unfold unit_of. rewrite <- Ha. apply emit_entry_id.
Qed.

Lemma whole_as_preamble_cases s :
  whole_as_preamble s = [] ∨ ∃ p, whole_as_preamble s = [preamble_unit p].
Proof. unfold whole_as_preamble. destruct (strip s); eauto. Qed.

End CountFacts.

Import ReSpec ReFacts Shape ShapeFacts StrFacts SegmentFacts CountFacts.



(** * The article segmenters *)

Module UnitsFacts.
Import ReSpec ReFacts Shape ShapeFacts StrFacts SegmentFacts CountFacts.

Definition units_shape (v : variant) (s : text) (ms : list match_obj)
    (out : list article) : Prop :=
  ∃ pre arts, out = pre ++ arts
              ∧ (pre = [] ∨ ∃ p, pre = [preamble_unit p])
              ∧ Forall2 (unit_of v s) ms arts.

Lemma units_nil v s : units_shape v s [] (whole_as_preamble s).
Proof.
  exists (whole_as_preamble s), []. rewrite app_nil_r.
  split_and!; [reflexivity|apply whole_as_preamble_cases|constructor].
Qed.

Lemma units_epc (s : text) :
  NoDup (marker_id EPC s <$> Epc.candidates s) →
  passes_filters EPC s (Epc.candidates s) →
  units_shape EPC s (Epc.candidates s) (Epc.split_cleaned s).
Proof.
  unfold Epc.split_cleaned.
  assert (chain flag_I s Epc.article_pattern 0 (Epc.candidates s)) as Hc
    by apply finditer_chain.
  revert Hc. generalize (Epc.candidates s). intros ms Hc Hnd [Hnum Hkeep].
  destruct ms as [|first rest] eqn:Ems; [apply units_nil|].
  rewrite <- Ems in *.
  pose proof (epc_prepared_ids _ _ _ Hc Hnum) as Hids.
  eexists _, _. split; [reflexivity|]. split.
  { destruct (Epc.preamble_text s first); eauto. }
  rewrite passes_keep_all.
  - apply emitted_units. exact Hids.
  - rewrite (Forall2_ids _ _ _ Hids). exact Hnd.
  - exact Hkeep.
Qed.

Lemma units_korea (s : text) :
  units_shape KOREA s (Korea.candidates s) (Korea._split_korean s).
Proof.
  unfold Korea._split_korean.
  assert (chain no_flags s Korea.article_pattern 0 (Korea.candidates s))
    as Hc by apply finditer_chain.
  revert Hc. generalize (Korea.candidates s). intros ms Hc.
  destruct ms as [|first rest] eqn:Ems; [apply units_nil|].
  rewrite <- Ems in *.
  eexists _, _. split; [reflexivity|]. split.
  { destruct (Korea.preamble_text s first); eauto. }
  eapply korea_loop_units. exact Hc.
Qed.

Lemma units_usa (s : text) :
  NoDup (marker_id USA s <$> Usa.candidates s) →
  passes_filters USA s (Usa.candidates s) →
  units_shape USA s (Usa.candidates s) (Usa.split_cleaned s).
Proof.
  unfold Usa.split_cleaned.
  assert (chain no_flags s Usa.article_pattern 0 (Usa.candidates s))
    as Hc by apply finditer_chain.
  revert Hc. generalize (Usa.candidates s). intros ms Hc Hnd Hkeep.
  destruct ms as [|first rest] eqn:Ems; [apply units_nil|].
  rewrite <- Ems in *.
  pose proof (usa_prepared_ids _ _ _ Hc) as Hids.
  eexists _, _. split; [reflexivity|]. split.
  { unfold Usa.preamble_part.
    destruct (50 <? length (strip (take (chunk_start s first) s))); eauto. }
  rewrite passes_keep_all.
  - apply emitted_units. exact Hids.
  - rewrite (Forall2_ids _ _ _ Hids). exact Hnd.
  - exact Hkeep.
Qed.

End UnitsFacts.

(** C1, as the code has it, for the EPC, the Korean and the US segmenter
    ([_split_english], [_split_korean], [_split_us_english]).  The markers
    are those of the text as the segmenter scans it, [scanned v text0]:
    the input itself for the Korean grammar; for the EPC grammar the
    input after [_clean_epc_annotations] when it names the European
    Patent Convention, else the input itself; for the US grammar the
    input after [_clean_us_westlaw_metadata].  When the N line-anchored
    markers of the scanned text have pairwise distinct ids and no
    candidate is removed by the variant's filters (the numeral filter and
    the minimum-content filter), the segmenter returns, after at most one
    preamble unit, exactly N article units, one per marker and in the
    order of the markers, each with the id of its marker (and the
    deletion suffix when it is marked deleted). *)
Theorem segment_units (v : variant) (text0 : text) :
  NoDup (marker_id v (scanned v text0) <$> markers v (scanned v text0)) →
  passes_filters v (scanned v text0) (markers v (scanned v text0)) →
  ∃ pre arts,
    segment v text0 = pre ++ arts
    ∧ (pre = [] ∨ ∃ p, pre = [preamble_unit p])
    ∧ length arts = length (markers v (scanned v text0))
    ∧ Forall2 (unit_of v (scanned v text0)) (markers v (scanned v text0)) arts.
Proof.
  unfold segment. generalize (scanned v text0). intros s Hnd Hpass.
  assert (UnitsFacts.units_shape v s (markers v s) (split_scanned v s))
    as (pre & arts & Hout & Hpre & HF).
  { destruct v; cbn [split_scanned markers] in *.
    - apply UnitsFacts.units_epc; assumption.
    - apply UnitsFacts.units_korea.
    - apply UnitsFacts.units_usa; assumption. }
  exists pre, arts. split; [exact Hout|]. split; [exact Hpre|].
  split; [|exact HF]. symmetry. exact (Forall2_length _ _ _ HF).
Qed.

Lemma segment_variants (t : text) :
  segment EPC t = Epc._split_english t
  ∧ segment KOREA t = Korea._split_korean t
  ∧ segment USA t = Usa._split_us_english t.
Proof.
  unfold segment, Epc._split_english, Usa._split_us_english.
  cbn [split_scanned scanned]. split_and!; exact eq_refl.
Qed.


(** C1 as stated fails: one line-anchored marker, no duplicate id, and
    the segmenter returns no unit at all. *)
Lemma segment_units_short_body :
  length (markers EPC (scanned EPC short_article)) = 1
  ∧ NoDup (marker_id EPC (scanned EPC short_article)
             <$> markers EPC (scanned EPC short_article))
  ∧ segment EPC short_article = [].
Proof.
  split_and!.
  - vm_compute. reflexivity.
  - by_compute.
  - vm_compute. reflexivity.
Qed.

Lemma segment_units_witness :
  NoDup (marker_id EPC (scanned EPC two_articles)
           <$> markers EPC (scanned EPC two_articles))
  ∧ passes_filters EPC (scanned EPC two_articles)
      (markers EPC (scanned EPC two_articles))
  ∧ ∃ pre arts,
      segment EPC two_articles = pre ++ arts
      ∧ (pre = [] ∨ ∃ p, pre = [preamble_unit p])
      ∧ length arts = length (markers EPC (scanned EPC two_articles))
      ∧ Forall2 (unit_of EPC (scanned EPC two_articles))
          (markers EPC (scanned EPC two_articles)) arts.
Proof.
  assert (Hnd : NoDup (marker_id EPC (scanned EPC two_articles)
                         <$> markers EPC (scanned EPC two_articles))).
  { by_compute. }
  assert (Hpass : passes_filters EPC (scanned EPC two_articles)
                    (markers EPC (scanned EPC two_articles))).
  { split; by_compute. }
  split; [exact Hnd|]. split; [exact Hpass|].
  exact (segment_units EPC two_articles Hnd Hpass).
Defined.

Example two_articles_ids :
  art_id <$> segment EPC two_articles = [u "Article 1"; u "Article 2"].
Proof. vm_compute. reflexivity. Qed.

(** The markers of the input and of the scanned text differ where the
    cleaner removes a heading: two markers in the input, one in the
    cleaned text and one article unit behind the preamble. *)
Example margin_reference_units :
  length (markers EPC margin_reference) = 2
  ∧ length (markers EPC (scanned EPC margin_reference)) = 1
  ∧ art_id <$> segment EPC margin_reference = [PREAMBLE_ID; u "Article 16"].
Proof. split_and!; vm_compute; reflexivity. Qed.

Example effective_line_units :
  length (markers USA effective_line) = 1
  ∧ length (markers USA (scanned USA effective_line)) = 0
  ∧ segment USA effective_line = [preamble_unit (u "§ 101.")].
Proof. split_and!; vm_compute; reflexivity. Qed.


(** * The duplicate pass *)

Module DedupFacts.
Import SegmentFacts.







End DedupFacts.





(** Example 4 of the description, run through the segmenter. *)
Example toc_and_body_one_unit :
  (λ a, (art_id a, length (art_text a))) <$> segment EPC toc_and_body
  = [(u "Article 3", 97)].
Proof. vm_compute. reflexivity. Qed.

(** * What the segmenters emit *)

Module OutputFacts.
Import ReSpec ReFacts Shape ShapeFacts StrFacts SegmentFacts.











End OutputFacts.





Example korean_deleted_units :
  segment KOREA korean_deleted
  = [ {| art_id := u "제1조"; art_text := u "제1조(목적) 이 법은 특허를 보호한다.";
         art_title := None; art_deleted := false |};
      {| art_id := u "제2조 (삭제)"; art_text := u "(삭제)";
         art_title := None; art_deleted := false |} ].
Proof. vm_compute. reflexivity. Qed.





(** * The numeral filter of the EPC grammar *)

Module NumeralFacts.
Import ReSpec ReFacts Shape ShapeFacts StrFacts SegmentFacts OutputFacts.












End NumeralFacts.




Example long_numeral_units :
  art_id <$> segment EPC long_numeral = [u "Article 2"].
Proof. vm_compute. reflexivity. Qed.


(** * The joining rule *)

Module JoinFacts.










End JoinFacts.



Example korean_headings_labels :
  attach (KoreaHierarchy._detect_hierarchy_korean korean_headings)
    (find (u "제29조") korean_headings)
  = {| latest_part := u "제1편 총칙"; latest_chapter := u "제2장 특허요건";
       latest_section := u "제1절 출원" |}
  ∧ attach (KoreaHierarchy._detect_hierarchy_korean korean_headings)
      (find (u "제1조") korean_headings)
    = {| latest_part := u "제1편 총칙"; latest_chapter := u "제1장 통칙";
         latest_section := [] |}.
Proof. split; vm_compute; reflexivity. Qed.



(** * The definition paragraphs of the English decomposer *)




Example definitions_body_units :
  (λ x, (paragraph x, item x)) <$>
    EpcParagraphs._parse_paragraphs_english definitions_body
  = [(u "1", []); (u "2", []); (u "2", u "a"); (u "2", u "b")].
Proof. vm_compute. reflexivity. Qed.


(** * What the decomposers keep of an article body *)

Module DrawnFacts.
Import ReSpec ReFacts StrFacts SegmentFacts.
















(** ** The English decomposer *)





(** ** The US decomposer *)






(** ** The Korean decomposer *)





End DrawnFacts.




(** * The dispatch of the paragraph decomposers *)

(** Away from the US format a Chinese article gives one row: no
    paragraph, item, sub-item or sub-sub-item, and the whole text. *)
Lemma chinese_article_one_row
    (h : labels) (article_id title article_text : text) (f : fmt) :
  f ≠ us →
  article_rows h article_id title article_text chinese f
  = [{| Part := latest_part h; Chapter := latest_chapter h;
Section := latest_section h; ArticleId := article_id;
ArticleTitle := title; Paragraph := []; Item := []; Subitem := [];
Subsubitem := []; Text := article_text |}].
Proof.
  intros Hf. unfold article_rows, _parse_paragraphs_and_items.
  rewrite bool_decide_eq_false_2 by exact Hf.
  rewrite bool_decide_eq_true_2 by reflexivity. reflexivity.
Qed.



(** * Further properties of the segmenters *)

Module LineFacts.
Import ReSpec ReFacts Shape ShapeFacts StrFacts SegmentFacts.




End LineFacts.


Module FilterFacts.
Import ReSpec ReFacts Shape ShapeFacts StrFacts SegmentFacts OutputFacts.



End FilterFacts.


Module UniqueFacts.
Import ReSpec ReFacts Shape ShapeFacts StrFacts SegmentFacts OutputFacts.








End UniqueFacts.


Module MonotoneFacts.


End MonotoneFacts.



Module ChineseFacts.
Import ReSpec ReFacts Shape ShapeFacts StrFacts SegmentFacts.



End ChineseFacts.


Module ProvenanceFacts.
Import ReSpec ReFacts Shape ShapeFacts StrFacts SegmentFacts OutputFacts.







End ProvenanceFacts.


Module OrderFacts.
Import ReSpec ReFacts Shape ShapeFacts StrFacts SegmentFacts CountFacts.






End OrderFacts.

